(** * ofxstatement-iso20022: the camt.053 statement translator

    A shallow embedding of [src/ofxstatement/plugins/iso20022.py].  The
    translator walks an ElementTree, fills a [Statement] and raises Python
    exceptions on the way; here the tree is an inductive [Element], the parser
    object is a record passed around explicitly, and every function that can
    raise returns a [result]. *)

From Stdlib Require Import ZArith List Bool Ascii String.
From Stdlib Require Import Floats.SpecFloat.
From stdpp Require Import base option list strings gmap.

Local Open Scope string_scope.
Local Open Scope Z_scope.

(** ** Exceptions

    [ParseError] is the only exception class the plugin raises itself
    ([ofxstatement.exceptions.ParseError], a line number and a message).  The
    others are the interpreter's own, raised when the code dereferences
    [None], indexes a dict at a missing key, unpacks a list of the wrong
    length, fails an [assert], or hands ill-formed text to a builtin parser. *)

Inductive exn : Type :=
  | ParseError (lineno : Z) (message : string)
  | AttributeError
  | KeyError (key : option string)
  | ValueError
  | TypeError
  | AssertionError.

Definition result (A : Type) : Type := exn + A.

Definition ok {A : Type} (a : A) : result A := inr a.
Definition raise {A : Type} (e : exn) : result A := inl e.

Definition bind {A B : Type} (m : result A) (k : A -> result B) : result B :=
  match m with
  | inl e => inl e
  | inr a => k a
  end.

Notation "'do' x <- m ; k" := (bind m (fun x => k))
  (at level 10, x name, m at level 100, k at level 200).

(** [node.text] on a node that may be [None]. *)
Definition deref {A : Type} (o : option A) : result A :=
  match o with
  | Some a => ok a
  | None => raise AttributeError
  end.

(** ** Module constants *)

Definition ISO20022_NAMESPACE_ROOT : string :=
  "urn:iso:std:iso:20022:tech:xsd:camt.053.001".

Definition CD_CREDIT : string := "CRDT".
Definition CD_DEBIT : string := "DBIT".


(** ** Strings

    [c in s], [s.split(sep)] and [sep.join(pieces)] for a one-character
    separator. *)

Fixpoint contains_char (c : ascii) (s : string) : bool :=
  match s with
  | EmptyString => false
  | String x s' => Ascii.eqb x c || contains_char c s'
  end.

(** [s.split(sep)]: the pieces between the separators, so one more piece
    than there are separators. *)
Fixpoint split (sep : ascii) (s : string) : list string :=
  match s with
  | EmptyString => [EmptyString]
  | String x s' =>
      if Ascii.eqb x sep then EmptyString :: split sep s'
      else match split sep s' with
           | piece :: pieces => String x piece :: pieces
           | [] => [String x EmptyString]
           end
  end.

Fixpoint join (sep : ascii) (pieces : list string) : string :=
  match pieces with
  | [] => EmptyString
  | [piece] => piece
  | piece :: pieces' => piece ++ String sep (join sep pieces')
  end.

Fixpoint count_char (c : ascii) (s : string) : nat :=
  match s with
  | EmptyString => 0%nat
  | String x s' => ((if Ascii.eqb x c then 1 else 0) + count_char c s')%nat
  end.

(** ** The element tree

    An [xml.etree.ElementTree.Element]: a tag in Clark notation
    ([{namespace}local]), the attribute dict, the text before the first child
    ([None] when there is none) and the children in document order. *)

#[warnings="-register-all"]
Inductive Element : Type :=
  | mkElement (tag : string) (attrib : gmap string string)
              (text : option string) (children : list Element).

Definition tag (e : Element) : string :=
  match e with mkElement t _ _ _ => t end.
Definition attrib (e : Element) : gmap string string :=
  match e with mkElement _ a _ _ => a end.
Definition text (e : Element) : option string :=
  match e with mkElement _ _ t _ => t end.
Definition children (e : Element) : list Element :=
  match e with mkElement _ _ _ c => c end.

(** [elem.get(key)]. *)
Definition get (e : Element) (key : string) : option string :=
  attrib e !! key.

(** *** Location paths

    The paths the plugin uses are of the form [./p:A/p:B]: the element
    itself, then children by prefixed name.  A step is either; the other
    constructs of ElementPath do not occur. *)

Inductive step : Type :=
  | step_self
  | step_child (name : string).

(** ElementPath cuts [p:A] at its first colon and looks the prefix up in the
    namespace dict, giving [{uri}A].  An unknown prefix is a [SyntaxError]
    there; the only prefix the plugin writes is the one [parse] registers, and
    the name is left as it is in that case. *)
Definition resolve (xmlns : gmap string string) (name : string) : string :=
  match split ":" name with
  | prefix :: local :: more =>
      match xmlns !! prefix with
      | Some uri => "{" ++ uri ++ "}" ++ join ":" (local :: more)
      | None => name
      end
  | _ => name
  end.

Definition steps (xmlns : gmap string string) (path : string) : list step :=
  map (fun name => if String.eqb name "." then step_self
                   else step_child (resolve xmlns name))
      (split "/" path).

Definition select_child (name : string) (ctx : list Element) : list Element :=
  flat_map (fun e => filter (fun c => tag c = name) (children e)) ctx.

Definition select (ctx : list Element) (s : step) : list Element :=
  match s with
  | step_self => ctx
  | step_child name => select_child name ctx
  end.

(** [elem.findall(path, namespaces)]: every step replaces the context, at
    first the element alone, by what it selects from it, in document order. *)
Definition findall (xmlns : gmap string string) (e : Element) (path : string)
  : list Element :=
  fold_left select (steps xmlns path) [e].

(** [elem.find(path, namespaces)]: the first match, or [None]. *)
Definition find (xmlns : gmap string string) (e : Element) (path : string)
  : option Element :=
  head (findall xmlns e path).

(** The module-level [_toxpath]: every tag of the shorthand gets the prefix
    [s], and the path starts at the element itself. *)
Definition _toxpath (spath : string) : string :=
  let tags := split "/" spath in
  let path := map (fun t => "s:" ++ t) tags in
  "./" ++ join "/" path.

(** ** Python floats

    A Python [float] is an IEEE 754 binary64 number: [spec_float] at
    precision 53 and maximal exponent 1024. *)

Definition float : Type := spec_float.

Definition float_zero : float := S754_zero false.
Definition float_neg (x : float) : float := SFopp x.
Definition float_ltb (x y : float) : bool := SFltb x y.
Definition float_leb (x y : float) : bool := SFleb x y.

(** *** [float(text)]

    The builtin applied to a [str]: surrounding whitespace is dropped,
    underscores are accepted between digits only, and what remains is a sign
    followed by [inf], [infinity], [nan] (any case) or a decimal literal with
    an optional fraction and exponent, rounded to the nearest binary64 (ties
    to even).  Anything else is a [ValueError]. *)

Definition is_space (c : ascii) : bool :=
  let n := nat_of_ascii c in
  ((9 <=? n) && (n <=? 13) || (28 <=? n) && (n <=? 32))%nat.

Definition is_digit (c : ascii) : bool :=
  let n := nat_of_ascii c in ((48 <=? n) && (n <=? 57))%nat.

Definition digit_value (c : ascii) : Z := Z.of_nat (nat_of_ascii c) - 48.

Definition lower (c : ascii) : ascii :=
  let n := nat_of_ascii c in
  if ((65 <=? n) && (n <=? 90))%nat then ascii_of_nat (n + 32) else c.

Fixpoint lstrip (l : list ascii) : list ascii :=
  match l with
  | c :: l' => if is_space c then lstrip l' else l
  | [] => []
  end.

Definition strip (l : list ascii) : list ascii :=
  rev (lstrip (rev (lstrip l))).

(** Underscores may only stand between two digits; they are removed. *)
Fixpoint drop_underscores (prev : option ascii) (l : list ascii)
  : option (list ascii) :=
  match l with
  | [] => match prev with
          | Some "_"%char => None
          | _ => Some []
          end
  | c :: l' =>
      if Ascii.eqb c "_" then
        match prev with
        | Some p => if is_digit p then drop_underscores (Some c) l' else None
        | None => None
        end
      else
        match prev with
        | Some "_"%char =>
            if is_digit c then cons c <$> drop_underscores (Some c) l' else None
        | _ => cons c <$> drop_underscores (Some c) l'
        end
  end.

Fixpoint span_digits (l : list ascii) : list ascii * list ascii :=
  match l with
  | c :: l' =>
      if is_digit c
      then let '(ds, rest) := span_digits l' in (c :: ds, rest)
      else ([], l)
  | [] => ([], [])
  end.

Definition digits_value (ds : list ascii) : Z :=
  fold_left (fun acc c => 10 * acc + digit_value c) ds 0.

Definition split_sign (l : list ascii) : bool * list ascii :=
  match l with
  | "-"%char :: l' => (true, l')
  | "+"%char :: l' => (false, l')
  | _ => (false, l)
  end.

(** The exponent part: nothing, or [e]/[E], an optional sign and at least one
    digit, up to the end of the text. *)
Definition parse_exponent (l : list ascii) : option Z :=
  match l with
  | [] => Some 0
  | c :: l' =>
      if Ascii.eqb (lower c) "e" then
        let '(neg, l'') := split_sign l' in
        let '(ds, rest) := span_digits l'' in
        match ds, rest with
        | _ :: _, [] => Some (if neg then - digits_value ds else digits_value ds)
        | _, _ => None
        end
      else None
  end.

(** The binary64 nearest to [m * 10^e], for [m > 0]. *)
Definition decimal_to_float (neg : bool) (m : Z) (e : Z) : float :=
  if m =? 0 then S754_zero neg
  else if 0 <=? e then
    binary_normalize 53 1024 (if neg then - (m * 10 ^ e) else m * 10 ^ e) 0 false
  else
    let d := 10 ^ (- e) in
    let s := 64 + Z.log2_up d in
    let '(q, r) := Z.div_eucl (Z.shiftl m s) d in
    binary_round_aux 53 1024 neg q (- s) (new_location d r).

Definition parse_decimal (neg : bool) (l : list ascii) : option float :=
  let '(ip, rest) := span_digits l in
  let '(fp, rest) :=
    match rest with
    | "."%char :: rest' => span_digits rest'
    | _ => ([], rest)
    end in
  match (ip ++ fp)%list with
  | [] => None
  | ds =>
      e ← parse_exponent rest;
      Some (decimal_to_float neg (digits_value ds) (e - Z.of_nat (length fp)))
  end.

Definition float_of_chars (l : list ascii) : option float :=
  l ← drop_underscores None (strip l);
  let '(neg, body) := split_sign l in
  let word := string_of_list_ascii (map lower body) in
  if decide (word = "inf" ∨ word = "infinity") then Some (S754_infinity neg)
  else if decide (word = "nan") then Some S754_nan
  else parse_decimal neg body.

(** [float(x)] for [x] a [str] or [None]. *)
Definition py_float (x : option string) : result float :=
  match x with
  | None => raise TypeError
  | Some s =>
      match float_of_chars (list_ascii_of_string s) with
      | Some f => ok f
      | None => raise ValueError
      end
  end.

(** ** [datetime.datetime] and [strptime]

    A naive timestamp, and the builtin [datetime.datetime.strptime] for
    formats made of the directives the plugin uses.  [strptime] turns the
    format into a regular expression, one group of alternatives per
    directive, matches it at the start of the text with the usual
    backtracking (case-insensitively), rejects a match that leaves text over,
    and builds the [datetime], which checks the calendar. *)

Record datetime : Type := mkDatetime {
  year : Z; month : Z; day : Z; hour : Z; minute : Z; second : Z
}.

Inductive directive : Type :=
  | dir_Y | dir_m | dir_d | dir_H | dir_M | dir_S
  | dir_lit (c : ascii).

Definition in_range (lo hi : ascii) (c : ascii) : bool :=
  ((nat_of_ascii lo <=? nat_of_ascii c) && (nat_of_ascii c <=? nat_of_ascii hi))%nat.

(** The alternatives of a directive, in the order the regular expression
    tries them; each is a sequence of character classes. *)
Definition directive_alts (d : directive) : list (list (ascii -> bool)) :=
  let dg := is_digit in
  match d with
  | dir_Y => [[dg; dg; dg; dg]]
  | dir_m => [[Ascii.eqb "1"; in_range "0" "2"]; [Ascii.eqb "0"; in_range "1" "9"];
              [in_range "1" "9"]]
  | dir_d => [[Ascii.eqb "3"; in_range "0" "1"]; [in_range "1" "2"; dg];
              [Ascii.eqb "0"; in_range "1" "9"]; [in_range "1" "9"];
              [Ascii.eqb " "; in_range "1" "9"]]
  | dir_H => [[Ascii.eqb "2"; in_range "0" "3"]; [in_range "0" "1"; dg]; [dg]]
  | dir_M => [[in_range "0" "5"; dg]; [dg]]
  | dir_S => [[Ascii.eqb "6"; in_range "0" "1"]; [in_range "0" "5"; dg]; [dg]]
  | dir_lit c => [[fun x => Ascii.eqb (lower x) (lower c)]]
  end.

Fixpoint match_classes (cs : list (ascii -> bool)) (l : list ascii)
  : option (list ascii * list ascii) :=
  match cs, l with
  | [], _ => Some ([], l)
  | p :: cs', c :: l' =>
      if p c then
        match match_classes cs' l' with
        | Some (m, rest) => Some (c :: m, rest)
        | None => None
        end
      else None
  | _ :: _, [] => None
  end.

(** Every way the format matches a prefix of the text, first choice first:
    the groups found and the text left over. *)
Fixpoint match_format (fmt : list directive) (l : list ascii)
  : list (list (directive * list ascii) * list ascii) :=
  match fmt with
  | [] => [([], l)]
  | d :: fmt' =>
      flat_map (fun cs =>
        match match_classes cs l with
        | Some (m, rest) =>
            map (fun '(gs, over) => ((d, m) :: gs, over)) (match_format fmt' rest)
        | None => []
        end) (directive_alts d)
  end.

(** [int(group)]: the digits of the group ([int] ignores the blank of a
    space-padded day). *)
Definition group_value (m : list ascii) : Z :=
  digits_value (filter (fun c => is_digit c = true) m).

Definition set_field (dt : datetime) (g : directive * list ascii) : datetime :=
  let v := group_value (snd g) in
  match fst g with
  | dir_Y => mkDatetime v (month dt) (day dt) (hour dt) (minute dt) (second dt)
  | dir_m => mkDatetime (year dt) v (day dt) (hour dt) (minute dt) (second dt)
  | dir_d => mkDatetime (year dt) (month dt) v (hour dt) (minute dt) (second dt)
  | dir_H => mkDatetime (year dt) (month dt) (day dt) v (minute dt) (second dt)
  | dir_M => mkDatetime (year dt) (month dt) (day dt) (hour dt) v (second dt)
  | dir_S => mkDatetime (year dt) (month dt) (day dt) (hour dt) (minute dt) v
  | dir_lit _ => dt
  end.

Definition is_leap (y : Z) : bool :=
  (y mod 4 =? 0) && (negb (y mod 100 =? 0) || (y mod 400 =? 0)).

Definition days_in_month (y m : Z) : Z :=
  if m =? 2 then (if is_leap y then 29 else 28)
  else if (m =? 4) || (m =? 6) || (m =? 9) || (m =? 11) then 30
  else 31.

(** The checks of the [datetime] constructor. *)
Definition valid_datetime (dt : datetime) : bool :=
  (1 <=? year dt) && (year dt <=? 9999)
  && (1 <=? month dt) && (month dt <=? 12)
  && (1 <=? day dt) && (day dt <=? days_in_month (year dt) (month dt))
  && (0 <=? hour dt) && (hour dt <=? 23)
  && (0 <=? minute dt) && (minute dt <=? 59)
  && (0 <=? second dt) && (second dt <=? 59).

Definition strptime (data_string : string) (format : list directive)
  : result datetime :=
  match match_format format (list_ascii_of_string data_string) with
  | (groups, []) :: _ =>
      let dt := fold_left set_field groups (mkDatetime 1900 1 1 0 0 0) in
      if valid_datetime dt then ok dt else raise ValueError
  | _ => raise ValueError
  end.

(** ["%Y-%m-%d"] and ["%Y-%m-%dT%H:%M:%S"]. *)
Definition format_date : list directive :=
  [dir_Y; dir_lit "-"; dir_m; dir_lit "-"; dir_d].

Definition format_datetime : list directive :=
  format_date ++ [dir_lit "T"; dir_H; dir_lit ":"; dir_M; dir_lit ":"; dir_S].


(** ** The statement record and the parser object

    [Statement] and [StatementLine] come from the host library; every field
    starts out as [None] ([lines] as the empty list).  Only the fields the
    plugin assigns are kept. *)

Record StatementLine : Type := mkStatementLine {
  payee : option string;
  amount : float;
  date : option datetime;
  date_user : option datetime;
  refnum : option string;
  memo : option string
}.

Record Statement : Type := mkStatement {
  lines : list StatementLine;
  currency : option string;
  bank_id : option string;
  account_id : option string;
  start_balance : option float;
  start_date : option datetime;
  end_balance : option float;
  end_date : option datetime
}.

(** [Statement()]. *)
Definition Statement_new : Statement :=
  mkStatement [] None None None None None None None.

(** The attributes of an [Iso20022Parser]: the configured default currency
    ([self.currency]), the statement under construction and the namespace
    dict.  The file name only serves to load the tree, which [parse] takes as
    its argument here. *)
Record Iso20022Parser : Type := mkParser {
  self_currency : option string;
  statement : Statement;
  xmlns : gmap string string
}.

Definition set_statement (self : Iso20022Parser) (st : Statement) : Iso20022Parser :=
  mkParser (self_currency self) st (xmlns self).

(** [Iso20022Parser(filename, currency)]. *)
Definition Iso20022Parser_new (currency : option string) : Iso20022Parser :=
  mkParser currency Statement_new ∅.

(** [str(x)] for a string or [None], as the [%s] of a message prints it. *)
Definition py_str (x : option string) : string :=
  match x with
  | Some s => s
  | None => "None"
  end.

(** Truth value of a string or [None]. *)
Definition truthy (x : option string) : bool :=
  match x with
  | Some (String _ _) => true
  | _ => false
  end.

(** [n.text if n is not None else None]. *)
Definition node_text (n : option Element) : option string :=
  match n with
  | Some e => text e
  | None => None
  end.


(** ** The plugin's methods *)

Definition _find (self : Iso20022Parser) (tree : Element) (spath : string)
  : option Element :=
  find (xmlns self) tree (_toxpath spath).

Definition _findall (self : Iso20022Parser) (tree : Element) (spath : string)
  : list Element :=
  findall (xmlns self) tree (_toxpath spath).

Definition _parse_amount (amtnode : Element) : result float :=
  py_float (text amtnode).

(** Strips a [+offset] suffix.  [dt] is the text of a node, possibly [None],
    on which the [in] test raises [TypeError]; the unpacking of [split] into two
    names raises [ValueError] unless there are exactly two pieces. *)
Definition _notimezone (dt : option string) : result string :=
  match dt with
  | None => raise TypeError
  | Some dt =>
      if negb (contains_char "+" dt) then ok dt
      else match split "+" dt with
           | [dt; tz] => ok dt
           | _ => raise ValueError
           end
  end.

Definition _parse_date (self : Iso20022Parser) (dtnode : option Element)
  : result (option datetime) :=
  match dtnode with
  | None => ok None
  | Some dtnode =>
      let dt := _find self dtnode "Dt" in
      let dttm := _find self dtnode "DtTm" in
      match dt with
      | Some dt =>
          do dtvalue <- _notimezone (text dt);
          do r <- strptime dtvalue format_date;
          ok (Some r)
      | None =>
          match dttm with
          | None => raise AssertionError
          | Some dttm =>
              do dtvalue <- _notimezone (text dttm);
              do r <- strptime dtvalue format_datetime;
              ok (Some r)
          end
      end
  end.

Definition _parse_line (self : Iso20022Parser) (ntry : Element)
  : result (option StatementLine) :=
  do crdeb_node <- deref (_find self ntry "CdtDbtInd");
  let crdeb := text crdeb_node in
  do amtnode <- deref (_find self ntry "Amt");
  let amt_ccy := get amtnode "Ccy" in
  if negb (bool_decide (amt_ccy = currency (statement self))) then ok None
  else
    do amt <- _parse_amount amtnode;
    let '(amt, payee) :=
      if bool_decide (crdeb = Some CD_DEBIT)
      then (float_neg amt, _find self ntry "NtryDtls/TxDtls/RltdPties/Cdtr/Nm")
      else (amt, _find self ntry "NtryDtls/TxDtls/RltdPties/Dbtr/Nm") in
    let sline_payee := node_text payee in
    do sline_date <- _parse_date self (_find self ntry "ValDt");
    do sline_date_user <- _parse_date self (_find self ntry "BookgDt");
    let svcref :=
      match _find self ntry "NtryDtls/TxDtls/Refs/AcctSvcrRef" with
      | Some r => Some r
      | None => _find self ntry "AcctSvcrRef"
      end in
    do svcref <- deref svcref;
    let rmtinf := _find self ntry "NtryDtls/TxDtls/RmtInf/Ustrd" in
    let addinf := _find self ntry "AddtlNtryInf" in
    let sline_memo :=
      match rmtinf, addinf with
      | Some r, _ => text r
      | None, Some a => text a
      | None, None => None
      end in
    ok (Some (mkStatementLine sline_payee amt sline_date sline_date_user
                              (text svcref) sline_memo)).

Definition append_line (st : Statement) (sline : StatementLine) : Statement :=
  mkStatement (lines st ++ [sline]) (currency st) (bank_id st) (account_id st)
              (start_balance st) (start_date st) (end_balance st) (end_date st).

(** The body of the loop of [_parse_lines]. *)
Definition _parse_lines_step (self : Iso20022Parser) (ntry : Element)
  : result Iso20022Parser :=
  do sline <- _parse_line self ntry;
  match sline with
  | Some sline => ok (set_statement self (append_line (statement self) sline))
  | None => ok self
  end.

Fixpoint _parse_lines_loop (self : Iso20022Parser) (ntries : list Element)
  : result Iso20022Parser :=
  match ntries with
  | [] => ok self
  | ntry :: ntries' =>
      do self' <- _parse_lines_step self ntry;
      _parse_lines_loop self' ntries'
  end.

Definition _parse_lines (self : Iso20022Parser) (tree : Element)
  : result Iso20022Parser :=
  _parse_lines_loop self (_findall self tree "BkToCstmrStmt/Stmt/Ntry").

(** The two messages of [_parse_statement_properties]. *)
Definition no_currency_message : string :=
  "No account currency provided in statement. Please specify one in configuration file (e.g. currency=EUR)".

Definition no_balance_message (ccy : option string) : string :=
  "No statement balance found for currency '" ++ py_str ccy
  ++ "'. Check currency of statement file.".

Definition set_currency (st : Statement) (ccy : option string) : Statement :=
  mkStatement (lines st) ccy (bank_id st) (account_id st)
              (start_balance st) (start_date st) (end_balance st) (end_date st).

Abbreviation balance_dicts :=
  (gmap (option string) float * gmap (option string) (option datetime))%type.

(** The body of the loop over the [Bal] elements: the two dicts, keyed by the
    text of the balance-type code, after this element.  The right-hand side
    of [bal_amts[cd.text] = ...] is evaluated before [cd.text]. *)
Definition _parse_balance (self : Iso20022Parser) (dicts : balance_dicts)
    (bal : Element) : result balance_dicts :=
  let '(bal_amts, bal_dates) := dicts in
  let cd := find (xmlns self) bal "./s:Tp/s:CdOrPrtry/s:Cd" in
  let amt := find (xmlns self) bal "./s:Amt" in
  let dt := find (xmlns self) bal "./s:Dt" in
  do amt <- deref amt;
  let amt_ccy := get amt "Ccy" in
  if negb (bool_decide (amt_ccy = currency (statement self))) then ok dicts
  else
    do a <- _parse_amount amt;
    do cd <- deref cd;
    do d <- _parse_date self dt;
    ok (<[text cd := a]> bal_amts, <[text cd := d]> bal_dates).

Fixpoint _parse_balances (self : Iso20022Parser) (dicts : balance_dicts)
    (bals : list Element) : result balance_dicts :=
  match bals with
  | [] => ok dicts
  | bal :: bals' =>
      do dicts' <- _parse_balance self dicts bal;
      _parse_balances self dicts' bals'
  end.

(** [d[key]]. *)
Definition getitem {V : Type} (d : gmap (option string) V) (key : string)
  : result V :=
  match d !! Some key with
  | Some v => ok v
  | None => raise (KeyError (Some key))
  end.

Definition _parse_statement_properties (self : Iso20022Parser) (tree : Element)
  : result Iso20022Parser :=
  do stmt <- deref (find (xmlns self) tree "./s:BkToCstmrStmt/s:Stmt");
  let bnk :=
    match find (xmlns self) stmt "./s:Acct/s:Svcr/s:FinInstnId/s:BIC" with
    | Some b => Some b
    | None => find (xmlns self) stmt "./s:Acct/s:Svcr/s:FinInstnId/s:Nm"
    end in
  let iban := find (xmlns self) stmt "./s:Acct/s:Id/s:IBAN" in
  let ccy := find (xmlns self) stmt "./s:Acct/s:Ccy" in
  let bals := findall (xmlns self) stmt "./s:Bal" in
  let acctCurrency := node_text ccy in
  do st <-
    (if truthy acctCurrency then ok (set_currency (statement self) acctCurrency)
     else match currency (statement self) with
          | None => raise (ParseError 0 no_currency_message)
          | Some _ => ok (statement self)
          end);
  let self := set_statement self st in
  do dicts <- _parse_balances self (∅, ∅) bals;
  let '(bal_amts, bal_dates) := dicts in
  if bool_decide (bal_amts = ∅)
  then raise (ParseError 0 (no_balance_message (currency st)))
  else
    let bank := node_text bnk in
    do iban <- deref iban;
    do opbd_amt <- getitem bal_amts "OPBD";
    do opbd_date <- getitem bal_dates "OPBD";
    do clbd_amt <- getitem bal_amts "CLBD";
    do clbd_date <- getitem bal_dates "CLBD";
    ok (set_statement self
          (mkStatement (lines st) (currency st) bank (text iban)
                       (Some opbd_amt) opbd_date (Some clbd_amt) clbd_date)).

(** The regular expression of [_get_namespace], a brace, a greedy group of
    any characters but a newline, a closing brace, matched at the start of
    the tag: the group runs, within the first line, up to the last closing
    brace. *)
Fixpoint last_brace (l : list ascii) : option (list ascii) :=
  match l with
  | [] => None
  | c :: l' =>
      if Ascii.eqb c "010" then None
      else match last_brace l' with
           | Some g => Some (c :: g)
           | None => if Ascii.eqb c "}" then Some [] else None
           end
  end.

Definition _get_namespace (elem : Element) : string :=
  match list_ascii_of_string (tag elem) with
  | "{"%char :: l =>
      match last_brace l with
      | Some g => string_of_list_ascii g
      | None => ""
      end
  | _ => ""
  end.

(** The entry point; [tree] is the root of the document [ET.parse] loaded. *)
Definition parse (self : Iso20022Parser) (tree : Element) : result Statement :=
  let self := set_statement self (set_currency Statement_new (self_currency self)) in
  let ns := _get_namespace tree in
  if negb (String.prefix ISO20022_NAMESPACE_ROOT ns)
  then raise (ParseError 0 "Cannot recognize ISO20022 XML")
  else
    let self := mkParser (self_currency self) (statement self) {["s" := ns]} in
    do self <- _parse_statement_properties self tree;
    do self <- _parse_lines self tree;
    ok (statement self).

(** [Iso20022Plugin.get_parser]: a parser whose default currency is the
    plugin's [currency] setting, [None] when the settings have none. *)
Definition get_parser (settings : gmap string string) : Iso20022Parser :=
  Iso20022Parser_new (settings !! "currency").

(** * Vocabulary of the properties *)

(** The plugin's own parse error, as opposed to an exception of the
    interpreter that escapes the translator. *)
Definition is_ParseError (e : exn) : bool :=
  match e with
  | ParseError _ _ => true
  | _ => false
  end.

(** The places an entry is read from. *)
Definition creditor_name : string := "NtryDtls/TxDtls/RltdPties/Cdtr/Nm".
Definition debtor_name : string := "NtryDtls/TxDtls/RltdPties/Dbtr/Nm".
Definition related_parties : string := "NtryDtls/TxDtls/RltdPties".
Definition detail_reference : string := "NtryDtls/TxDtls/Refs/AcctSvcrRef".
Definition entry_reference : string := "AcctSvcrRef".

(** Every place [_parse_line] looks at, the indicator apart. *)
Definition entry_paths : list string :=
  ["Amt"; debtor_name; "ValDt"; "BookgDt"; detail_reference; entry_reference;
   "NtryDtls/TxDtls/RmtInf/Ustrd"; "AddtlNtryInf"].

(** The amount node of the entry carries the statement's currency. *)
Definition same_currency (self : Iso20022Parser) (ntry : Element) : bool :=
  match _find self ntry "Amt" with
  | Some amtnode => bool_decide (get amtnode "Ccy" = currency (statement self))
  | None => false
  end.

(** The extraction steps read the parser object only for the namespace dict
    and the statement's currency. *)
Definition same_context (self self' : Iso20022Parser) : Prop :=
  xmlns self = xmlns self' /\
  currency (statement self) = currency (statement self').

Definition statement_path : string := "./s:BkToCstmrStmt/s:Stmt".

(** The local [acctCurrency]: the text of the account's [Ccy] element, [None]
    when the element is missing. *)
Definition account_currency (xmlns : gmap string string) (stmt : Element)
  : option string :=
  node_text (find xmlns stmt "./s:Acct/s:Ccy").

(** The currency the statement ends up with, when there is one: the
    account's if it names one, the one configured otherwise. *)
Definition effective_currency (self : Iso20022Parser) (stmt : Element)
  : option string :=
  if truthy (account_currency (xmlns self) stmt)
  then account_currency (xmlns self) stmt
  else currency (statement self).





(** The message of the namespace check of [parse]. *)
Definition cannot_recognize_message : string := "Cannot recognize ISO20022 XML".

(** An exception of the interpreter that the translator lets through when a
    node is missing or a text ill-formed. *)
Definition is_builtin_error (e : exn) : bool :=
  match e with
  | AttributeError | ValueError | TypeError | AssertionError => true
  | _ => false
  end.

(** A tag in Clark notation. *)
Definition clark (uri local : string) : string := "{" ++ uri ++ "}" ++ local.

(** The extraction context of a document: the namespace bound to [s] and the
    statement's currency. *)
Definition context (uri : string) (ccy : option string) : Iso20022Parser :=
  mkParser None (set_currency Statement_new ccy) {["s" := uri]}.

(** The element is a balance in the currency [ccy] with the type code
    [code]. *)
Definition is_code (xmlns : gmap string string) (ccy : option string)
    (code : string) (bal : Element) : bool :=
  match find xmlns bal "./s:Amt", find xmlns bal "./s:Tp/s:CdOrPrtry/s:Cd" with
  | Some amt, Some cd =>
      bool_decide (get amt "Ccy" = ccy) && bool_decide (text cd = Some code)
  | _, _ => false
  end.

(** The amount and the date a balance element stands for, where they parse. *)
Definition balance_amount (xmlns : gmap string string) (bal : Element)
  : option float :=
  match find xmlns bal "./s:Amt" with
  | Some amt => match _parse_amount amt with
                | inr a => Some a
                | inl _ => None
                end
  | None => None
  end.

Definition balance_date (self : Iso20022Parser) (bal : Element)
  : option datetime :=
  match _parse_date self (find (xmlns self) bal "./s:Dt") with
  | inr d => d
  | inl _ => None
  end.

(** The places the memo of an entry is read from. *)
Definition remittance_text : string := "NtryDtls/TxDtls/RmtInf/Ustrd".
Definition additional_info : string := "AddtlNtryInf".

(** The children of the elements of [ctx], tag by tag along [tags], that
    carry the tags in the namespace [uri]. *)
Definition descend (uri : string) (tags : list string) (ctx : list Element)
  : list Element :=
  fold_left (fun ctx t => select_child (clark uri t) ctx) tags ctx.

(** A tag of the shorthand paths: a non-empty run of the characters of an
    XML name without prefix, which ElementPath takes as a name as it stands. *)
Definition name_char (c : ascii) : bool :=
  let n := nat_of_ascii c in
  is_digit c
  || ((65 <=? n) && (n <=? 90))%nat || ((97 <=? n) && (n <=? 122))%nat
  || Ascii.eqb c "_" || Ascii.eqb c "-" || Ascii.eqb c ".".

Definition plain_name (t : string) : bool :=
  match list_ascii_of_string t with
  | [] => false
  | cs => forallb name_char cs
  end.

(** ** Sample documents

    Small trees in the shape of the repository's [simple.xml] fixture, used
    to run the translator on concrete inputs. *)

Module Sample.

Definition ns : string := "urn:iso:std:iso:20022:tech:xsd:camt.053.001.02".

Definition elem (name : string) (kids : list Element) : Element :=
  mkElement ("{" ++ ns ++ "}" ++ name) ∅ None kids.

Definition leaf (name txt : string) : Element :=
  mkElement ("{" ++ ns ++ "}" ++ name) ∅ (Some txt) [].

Definition amt (ccy txt : string) : Element :=
  mkElement ("{" ++ ns ++ "}" ++ "Amt") {["Ccy" := ccy]} (Some txt) [].

Definition on_date (name txt : string) : Element :=
  elem name [leaf "Dt" txt].

(** A parser ready for the extraction steps: namespace registered, the
    statement's currency resolved to [ccy]. *)
Definition parser (ccy : string) : Iso20022Parser :=
  mkParser None (set_currency Statement_new (Some ccy)) {["s" := ns]}.

Definition acct : Element :=
  elem "Acct"
    [elem "Id" [leaf "IBAN" "LT000000000000000000"];
     leaf "Ccy" "EUR";
     elem "Svcr" [elem "FinInstnId" [leaf "BIC" "AGBLLT2XXXX"]]].

Definition bal (code ccy txt dt : string) : Element :=
  elem "Bal"
    [elem "Tp" [elem "CdOrPrtry" [leaf "Cd" code]];
     amt ccy txt;
     on_date "Dt" dt].

Definition parties (role name : string) : Element :=
  elem "RltdPties" [elem role [leaf "Nm" name]].

(** An entry: indicator, amount, both dates, an entry-level reference and
    the transaction details given. *)
Definition ntry (ind ccy txt : string) (details : list Element) : Element :=
  elem "Ntry"
    [amt ccy txt;
     leaf "CdtDbtInd" ind;
     on_date "BookgDt" "2015-12-31";
     on_date "ValDt" "2016-01-01";
     leaf "AcctSvcrRef" "FC1261858984";
     elem "NtryDtls" [elem "TxDtls" details]].

Definition document (stmt_children : list Element) : Element :=
  elem "Document" [elem "BkToCstmrStmt" [elem "Stmt" stmt_children]].

Definition opening : Element := bal "OPBD" "EUR" "306.53" "2015-12-01".
Definition closing : Element := bal "CLBD" "EUR" "125.52" "2015-12-31".

Definition fee : Element :=
  ntry "DBIT" "EUR" "0.29" [parties "Cdtr" "AB DNB Bankas"].

Definition simple : Element := document [acct; opening; closing; fee].

End Sample.

(** * Properties *)

(** ** Strings *)

Lemma contains_char_count c s :
  contains_char c s = false <-> count_char c s = 0%nat.
Proof.
  induction s as [|x s IH]; simpl; [tauto|].
  destruct (Ascii.eqb x c); simpl; [split; discriminate | exact IH].
Qed.

Lemma split_length sep s :
  length (split sep s) = S (count_char sep s).
Proof.
  induction s as [|x s IH]; simpl; [reflexivity|].
  destruct (Ascii.eqb x sep); simpl; [now rewrite IH|].
  destruct (split sep s) as [|piece pieces]; simpl in *; congruence.
Qed.

Lemma split_none sep s :
  contains_char sep s = false -> split sep s = [s].
Proof.
  induction s as [|x s IH]; simpl; [reflexivity|].
  destruct (Ascii.eqb x sep); simpl; [discriminate|].
  intros H. now rewrite (IH H).
Qed.

Lemma split_app sep p o :
  contains_char sep p = false ->
  split sep (p ++ String sep o) = p :: split sep o.
Proof.
  induction p as [|x p IH]; simpl.
  - intros _. now rewrite Ascii.eqb_refl.
  - destruct (Ascii.eqb x sep); simpl; [discriminate|].
    intros H. now rewrite (IH H).
Qed.

Lemma contains_char_app c p o :
  contains_char c (p ++ o) = contains_char c p || contains_char c o.
Proof.
  induction p as [|x p IH]; simpl; [reflexivity|].
  now rewrite IH, orb_assoc.
Qed.

(** ** [_notimezone] *)

(** C8.  A text without [+] comes back unchanged, so that stripping twice is
    stripping once; a text made of a prefix, one [+] and an offset (neither
    holding a [+]) comes back as the prefix, character for character, and
    stripping that again changes nothing. *)
Theorem notimezone_idempotent_prefix :
  (forall t : string,
      contains_char "+" t = false ->
      _notimezone (Some t) = ok t /\
      (do r <- _notimezone (Some t); _notimezone (Some r)) = _notimezone (Some t)) /\
  (forall pre offset : string,
      contains_char "+" pre = false ->
      contains_char "+" offset = false ->
      _notimezone (Some (pre ++ String "+" offset)) = ok pre /\
      (do r <- _notimezone (Some (pre ++ String "+" offset)); _notimezone (Some r))
      = _notimezone (Some (pre ++ String "+" offset))).
Proof.
  assert (Hfix : forall t, contains_char "+" t = false -> _notimezone (Some t) = ok t).
  { intros t Ht. unfold _notimezone. now rewrite Ht. }
  split.
  - intros t Ht. rewrite (Hfix t Ht). split; [reflexivity|]. simpl. now apply Hfix.
  - intros pre offset Hp Ho.
    assert (E : _notimezone (Some (pre ++ String "+" offset)) = ok pre).
    { unfold _notimezone.
      rewrite contains_char_app. simpl. rewrite orb_true_r. simpl.
      rewrite (split_app _ _ _ Hp), (split_none _ _ Ho). reflexivity. }
    rewrite E. split; [reflexivity|]. simpl. now apply Hfix.
Qed.

Lemma notimezone_idempotent_prefix_witness :
  _notimezone (Some "2017-04-01") = ok "2017-04-01" /\
  _notimezone (Some "2017-04-01+02:00") = ok "2017-04-01".
Proof.
  destruct notimezone_idempotent_prefix as [Hplain Hoffset].
  split.
  - apply (Hplain "2017-04-01"). reflexivity.
  - apply (Hoffset "2017-04-01" "02:00"); reflexivity.
Defined.

(** C10.  On a text with two or more [+] the unpacking of the split fails
    with [ValueError]; the strip returns a value exactly on the texts with at
    most one [+]. *)
Theorem notimezone_partial_on_multi_plus (t : string) :
  ((2 <= count_char "+" t)%nat -> _notimezone (Some t) = raise ValueError) /\
  ((exists r, _notimezone (Some t) = ok r) <-> (count_char "+" t <= 1)%nat).
Proof.
  pose proof (split_length "+" t) as Hlen.
  pose proof (contains_char_count "+" t) as Hcnt.
  unfold _notimezone.
  destruct (contains_char "+" t) eqn:Hc; simpl.
  - assert (Hpos : count_char "+" t <> 0%nat) by (intros E; apply Hcnt in E; discriminate).
    destruct (split "+" t) as [|a [|b [|c l]]] eqn:Hs; simpl in Hlen.
    + discriminate.
    + exfalso. lia.
    + split; [intros; lia|]. split; [intros _; lia | intros _; eauto].
    + split; [reflexivity|]. split; [intros [r Hr]; discriminate | intros; lia].
  - assert (E : count_char "+" t = 0%nat) by now apply Hcnt.
    rewrite E. split; [intros; lia|]. split; [intros _; lia | intros _; eauto].
Qed.

Lemma notimezone_partial_on_multi_plus_witness :
  _notimezone (Some "2017-04-01+02:00+01:00") = raise ValueError.
Proof.
  apply (notimezone_partial_on_multi_plus "2017-04-01+02:00+01:00").
  simpl. lia.
Defined.

(** ** Exceptions raised by the extraction steps *)

Lemma bind_ok {A B : Type} (m : result A) (k : A -> result B) (b : B) :
  bind m k = ok b -> exists a, m = ok a /\ k a = ok b.
Proof. destruct m as [e|a]; simpl; [discriminate | eauto]. Qed.

Lemma bind_raise {A B : Type} (m : result A) (k : A -> result B) (e : exn) :
  bind m k = raise e -> m = raise e \/ exists a, m = ok a /\ k a = raise e.
Proof. destruct m as [e'|a]; simpl; [intros [= ->]; now left | eauto]. Qed.

Lemma deref_ok {A : Type} (o : option A) (a : A) : deref o = ok a -> o = Some a.
Proof. destruct o; simpl; [intros [= ->]; reflexivity | discriminate]. Qed.

Lemma deref_raise {A : Type} (o : option A) (e : exn) :
  deref o = raise e -> o = None /\ e = AttributeError.
Proof. destruct o; simpl; [discriminate | intros [= <-]; auto]. Qed.

Lemma py_float_raise x e : py_float x = raise e -> e = TypeError \/ e = ValueError.
Proof.
  destruct x as [s|]; simpl; [|intros [= <-]; auto].
  destruct (float_of_chars _); [discriminate | intros [= <-]; auto].
Qed.

Lemma notimezone_raise dt e :
  _notimezone dt = raise e -> e = TypeError \/ e = ValueError.
Proof.
  destruct dt as [s|]; simpl; [|intros [= <-]; auto].
  destruct (contains_char "+" s); simpl; [|discriminate].
  destruct (split "+" s) as [|a [|b [|c l]]]; try discriminate; intros [= <-]; auto.
Qed.

Lemma strptime_raise s f e : strptime s f = raise e -> e = ValueError.
Proof.
  unfold strptime.
  destruct (match_format f _) as [|[groups [|c over]] paths];
    try (intros [= <-]; reflexivity).
  destruct (valid_datetime _); [discriminate | intros [= <-]; reflexivity].
Qed.

Lemma parse_date_raise self dtnode e :
  _parse_date self dtnode = raise e ->
  e = ValueError \/ e = TypeError \/ e = AssertionError.
Proof.
  unfold _parse_date. destruct dtnode as [n|]; [|discriminate].
  destruct (_find self n "Dt") as [d|].
  - intros H. apply bind_raise in H as [H|(v & _ & H)].
    + apply notimezone_raise in H. tauto.
    + apply bind_raise in H as [H|(r & _ & H)]; [|discriminate].
      apply strptime_raise in H. tauto.
  - destruct (_find self n "DtTm") as [t|]; [|intros [= <-]; tauto].
    intros H. apply bind_raise in H as [H|(v & _ & H)].
    + apply notimezone_raise in H. tauto.
    + apply bind_raise in H as [H|(r & _ & H)]; [|discriminate].
      apply strptime_raise in H. tauto.
Qed.

(** ** [_parse_date] *)

(** C6, as the code has it.  The normalizer returns [None] exactly when the
    node is [None].  On a node it reads the date-only child when there is
    one, whatever else the node holds, and the date-time child otherwise.
    Its failures are exceptions of the interpreter, never the plugin's
    [ParseError]: [AssertionError] when neither child is present,
    [ValueError] when the stripped text does not match the pattern of the
    child read ([TypeError] when that child has no text). *)
Theorem parse_date_cases (self : Iso20022Parser) (dtnode : option Element) :
  (_parse_date self dtnode = ok None <-> dtnode = None) /\
  (forall n d, dtnode = Some n -> _find self n "Dt" = Some d ->
     _parse_date self dtnode =
       (do dtvalue <- _notimezone (text d);
        do r <- strptime dtvalue format_date; ok (Some r))) /\
  (forall n t, dtnode = Some n -> _find self n "Dt" = None ->
     _find self n "DtTm" = Some t ->
     _parse_date self dtnode =
       (do dtvalue <- _notimezone (text t);
        do r <- strptime dtvalue format_datetime; ok (Some r))) /\
  (forall n, dtnode = Some n -> _find self n "Dt" = None ->
     _find self n "DtTm" = None ->
     _parse_date self dtnode = raise AssertionError) /\
  (forall e, _parse_date self dtnode = raise e ->
     is_ParseError e = false /\
     (e = ValueError \/ e = TypeError \/ e = AssertionError)).
Proof.
  split; [split|split; [|split; [|split]]].
  - destruct dtnode as [n|]; [|reflexivity]. unfold _parse_date.
    destruct (_find self n "Dt") as [d|]; [|destruct (_find self n "DtTm") as [t|]];
      try discriminate; intros H;
      apply bind_ok in H as (v & _ & H); apply bind_ok in H as (r & _ & H);
      discriminate.
  - intros ->. reflexivity.
  - intros n d -> Hd. unfold _parse_date. now rewrite Hd.
  - intros n t -> Hd Ht. unfold _parse_date. now rewrite Hd, Ht.
  - intros n -> Hd Ht. unfold _parse_date. now rewrite Hd, Ht.
  - intros e H. apply parse_date_raise in H.
    split; [destruct H as [->|[->| ->]]; reflexivity | exact H].
Qed.

Lemma parse_date_cases_witness :
  _parse_date (Sample.parser "EUR")
    (Some (Sample.elem "ValDt"
             [Sample.leaf "DtTm" "2016-01-01T10:00:00"; Sample.leaf "Dt" "2016-01-01+02:00"]))
  = ok (Some (mkDatetime 2016 1 1 0 0 0)).
Proof.
  destruct (parse_date_cases (Sample.parser "EUR")
    (Some (Sample.elem "ValDt"
             [Sample.leaf "DtTm" "2016-01-01T10:00:00"; Sample.leaf "Dt" "2016-01-01+02:00"])))
    as (_ & Hdt & _).
  rewrite (Hdt _ (Sample.leaf "Dt" "2016-01-01+02:00") eq_refl); reflexivity.
Defined.

(** C6 as stated fails: a date node with neither child trips the [assert],
    and a text that does not match makes [strptime] raise [ValueError];
    neither is a [ParseError]. *)
Lemma parse_date_unclassified_counterexample :
  _find (Sample.parser "EUR") (Sample.elem "ValDt" []) "Dt" = None /\
  _find (Sample.parser "EUR") (Sample.elem "ValDt" []) "DtTm" = None /\
  _parse_date (Sample.parser "EUR") (Some (Sample.elem "ValDt" []))
    = raise AssertionError /\
  is_ParseError AssertionError = false /\
  _parse_date (Sample.parser "EUR") (Some (Sample.on_date "ValDt" "31.12.2015"))
    = raise ValueError /\
  is_ParseError ValueError = false.
Proof. repeat split; reflexivity. Qed.

(** ** [_parse_line] *)

(** The node found at a place, and the amount parsed, are the ones the
    extraction went through. *)
Ltac same_found Hind Hind' Hamt Hamt' Ha Ha' :=
  rewrite Hind in Hind'; injection Hind' as <-;
  rewrite Hamt in Hamt'; injection Hamt' as <-;
  rewrite Ha in Ha'; injection Ha' as <-.

Section Extraction.

Context (self : Iso20022Parser).

(** What a successful extraction went through. *)
Lemma parse_line_ok ntry sline :
  _parse_line self ntry = ok (Some sline) ->
  exists ind amtnode a ref,
    _find self ntry "CdtDbtInd" = Some ind /\
    _find self ntry "Amt" = Some amtnode /\
    get amtnode "Ccy" = currency (statement self) /\
    _parse_amount amtnode = ok a /\
    _parse_date self (_find self ntry "ValDt") = ok (date sline) /\
    _parse_date self (_find self ntry "BookgDt") = ok (date_user sline) /\
    match _find self ntry detail_reference with
    | Some r => Some r
    | None => _find self ntry entry_reference
    end = Some ref /\
    refnum sline = text ref /\
    amount sline = (if bool_decide (text ind = Some CD_DEBIT) then float_neg a else a) /\
    payee sline =
      node_text (_find self ntry
                   (if bool_decide (text ind = Some CD_DEBIT)
                    then creditor_name else debtor_name)).
Proof.
  unfold _parse_line. intros H.
  apply bind_ok in H as (ind & Hind%deref_ok & H).
  apply bind_ok in H as (amtnode & Hamt%deref_ok & H).
  destruct (bool_decide (get amtnode "Ccy" = currency (statement self))) eqn:Hccy;
    simpl in H; [|discriminate].
  apply bool_decide_eq_true in Hccy.
  apply bind_ok in H as (a & Ha & H).
  exists ind, amtnode, a.
  destruct (bool_decide (text ind = Some CD_DEBIT));
    apply bind_ok in H as (d & Hd & H);
    apply bind_ok in H as (du & Hdu & H);
    apply bind_ok in H as (ref & Href%deref_ok & H);
    injection H as <-; exists ref; simpl; repeat split; assumption.
Qed.

(** The extractor itself never raises the plugin's [ParseError]. *)
Lemma parse_line_raise ntry e :
  _parse_line self ntry = raise e -> is_ParseError e = false.
Proof.
  assert (Hdate : forall n e', _parse_date self n = raise e' -> is_ParseError e' = false).
  { intros n e' H. apply parse_date_raise in H as [->|[->| ->]]; reflexivity. }
  unfold _parse_line. intros H.
  apply bind_raise in H as [[_ ->]%deref_raise|(ind & _ & H)]; [reflexivity|].
  apply bind_raise in H as [[_ ->]%deref_raise|(amtnode & _ & H)]; [reflexivity|].
  destruct (bool_decide (get amtnode "Ccy" = currency (statement self)));
    simpl in H; [|discriminate].
  apply bind_raise in H as [[->| ->]%py_float_raise|(a & _ & H)]; try reflexivity.
  destruct (bool_decide (text ind = Some CD_DEBIT));
    (apply bind_raise in H as [H|(d & _ & H)]; [now apply Hdate in H|];
     apply bind_raise in H as [H|(du & _ & H)]; [now apply Hdate in H|];
     apply bind_raise in H as [[_ ->]%deref_raise|(ref & _ & H)];
     [reflexivity | discriminate]).
Qed.

Lemma select_nil (ss : list step) : fold_left select ss [] = [].
Proof. induction ss as [|[|name] ss IH]; simpl; assumption || reflexivity. Qed.

(** Nothing is found below a place that does not exist. *)
Lemma find_below_missing xmlns e path more :
  fold_left select (steps xmlns path) [e] = [] ->
  fold_left select (steps xmlns path ++ more) [e] = [].
Proof. intros H. rewrite fold_left_app, H. apply select_nil. Qed.

Lemma find_party_missing ntry :
  _find self ntry related_parties = None ->
  _find self ntry creditor_name = None /\ _find self ntry debtor_name = None.
Proof.
  unfold _find, find, findall. intros H.
  assert (Hnil : fold_left select (steps (xmlns self) (_toxpath related_parties)) [ntry] = []).
  { destruct (fold_left _ _ _); [reflexivity | discriminate]. }
  split.
  - change (steps (xmlns self) (_toxpath creditor_name))
      with (steps (xmlns self) (_toxpath related_parties)
            ++ [step_child (resolve (xmlns self) "s:Cdtr");
                step_child (resolve (xmlns self) "s:Nm")])%list.
    now rewrite (find_below_missing _ _ _ _ Hnil).
  - change (steps (xmlns self) (_toxpath debtor_name))
      with (steps (xmlns self) (_toxpath related_parties)
            ++ [step_child (resolve (xmlns self) "s:Dbtr");
                step_child (resolve (xmlns self) "s:Nm")])%list.
    now rewrite (find_below_missing _ _ _ _ Hnil).
Qed.

End Extraction.

Lemma float_neg_positive (a : float) :
  float_ltb float_zero a = true -> float_ltb (float_neg a) float_zero = true.
Proof. destruct a as [s|s| |s m x]; try destruct s; simpl; (reflexivity || discriminate). Qed.

(** C2, as the code has it.  A debit entry carries the negation of the
    parsed amount, hence a negative amount whenever the text parses to a
    positive number, and the creditor's name as payee; a credit entry
    carries the parsed amount unchanged, hence a non-negative amount whenever
    the text parses to one, and the debtor's name.  Without a related-party
    structure the payee is [None]. *)
Theorem parse_line_sign_and_payee
    (self : Iso20022Parser) (ntry : Element) (sline : StatementLine)
    (ind amtnode : Element) (a : float) :
  _parse_line self ntry = ok (Some sline) ->
  _find self ntry "CdtDbtInd" = Some ind ->
  _find self ntry "Amt" = Some amtnode ->
  _parse_amount amtnode = ok a ->
  (text ind = Some CD_DEBIT ->
     amount sline = float_neg a /\
     (float_ltb float_zero a = true -> float_ltb (amount sline) float_zero = true) /\
     payee sline = node_text (_find self ntry creditor_name)) /\
  (text ind = Some CD_CREDIT ->
     amount sline = a /\
     (float_leb float_zero a = true -> float_leb float_zero (amount sline) = true) /\
     payee sline = node_text (_find self ntry debtor_name)) /\
  (_find self ntry related_parties = None -> payee sline = None).
Proof.
  intros Hok Hind Hamt Ha.
  apply parse_line_ok in Hok
    as (ind' & amtnode' & a' & ref & Hind' & Hamt' & _ & Ha' & _ & _ & _ & _ & Hamount & Hpayee).
  same_found Hind Hind' Hamt Hamt' Ha Ha'.
  split; [|split].
  - intros Hdebit. rewrite bool_decide_eq_true_2 in Hamount, Hpayee by exact Hdebit.
    rewrite Hamount. split; [reflexivity|]. split; [apply float_neg_positive | exact Hpayee].
  - intros Hcredit.
    rewrite bool_decide_eq_false_2 in Hamount, Hpayee by (rewrite Hcredit; discriminate).
    rewrite Hamount. split; [reflexivity|]. split; [tauto | exact Hpayee].
  - intros Hnone. rewrite Hpayee.
    destruct (find_party_missing _ _ Hnone) as [Hcdtr Hdbtr].
    destruct (bool_decide (text ind = Some CD_DEBIT)); [now rewrite Hcdtr | now rewrite Hdbtr].
Qed.

Lemma parse_line_sign_and_payee_witness :
  exists sline,
    _parse_line (Sample.parser "EUR") Sample.fee = ok (Some sline) /\
    float_ltb (amount sline) float_zero = true /\
    payee sline = Some "AB DNB Bankas".
Proof.
  eexists. split; [reflexivity|].
  destruct (parse_line_sign_and_payee (Sample.parser "EUR") Sample.fee _
              (Sample.leaf "CdtDbtInd" "DBIT") (Sample.amt "EUR" "0.29")
              (S754_finite false 5224175567749775 (-54))
              eq_refl eq_refl eq_refl eq_refl) as (Hdebit & _ & _).
  destruct (Hdebit eq_refl) as (_ & Hneg & Hpayee).
  split; [apply Hneg; reflexivity | exact Hpayee].
Defined.

(** C2 as stated fails on the sign: the amount text may itself be signed, and
    the indicator only decides whether it is negated.  A debit of [-5.00]
    comes out as [+5.0], a credit of [-5.00] as [-5.0]. *)
Lemma parse_line_sign_counterexample :
  (exists sline,
     _parse_line (Sample.parser "EUR")
       (Sample.ntry "DBIT" "EUR" "-5.00" [Sample.parties "Cdtr" "AB DNB Bankas"])
       = ok (Some sline) /\
     float_ltb (amount sline) float_zero = false /\
     float_ltb float_zero (amount sline) = true) /\
  (exists sline,
     _parse_line (Sample.parser "EUR")
       (Sample.ntry "CRDT" "EUR" "-5.00" [Sample.parties "Dbtr" "AB DNB Bankas"])
       = ok (Some sline) /\
     float_leb float_zero (amount sline) = false).
Proof. split; eexists; (split; [reflexivity|]); repeat split; reflexivity. Qed.

(** C9.  An indicator other than [DBIT], whatever it is, takes the credit
    branch: the amount is the parsed amount, not negated, and the payee is
    read from the debtor.  The extraction gives what it gives for an entry
    marked [CRDT] that holds the same nodes at the places the extractor
    reads. *)
Theorem parse_line_unknown_indicator
    (self : Iso20022Parser) (ntry ind : Element) (t : string) :
  _find self ntry "CdtDbtInd" = Some ind ->
  text ind = Some t ->
  t <> CD_DEBIT ->
  (forall sline amtnode a,
     _parse_line self ntry = ok (Some sline) ->
     _find self ntry "Amt" = Some amtnode ->
     _parse_amount amtnode = ok a ->
     amount sline = a /\
     payee sline = node_text (_find self ntry debtor_name)) /\
  (forall credit ind',
     _find self credit "CdtDbtInd" = Some ind' ->
     text ind' = Some CD_CREDIT ->
     Forall (fun spath => _find self credit spath = _find self ntry spath)
            entry_paths ->
     _parse_line self ntry = _parse_line self credit).
Proof.
  intros Hind Ht Hne. split.
  - intros sline amtnode a Hok Hamt Ha.
    apply parse_line_ok in Hok
      as (ind' & amtnode' & a' & ref & Hind' & Hamt' & _ & Ha' & _ & _ & _ & _ & Hamount & Hpayee).
    same_found Hind Hind' Hamt Hamt' Ha Ha'.
    rewrite bool_decide_eq_false_2 in Hamount, Hpayee by (rewrite Ht; congruence).
    split; assumption.
  - intros credit ind' Hind' Hcredit Hsame.
    repeat (apply Forall_cons in Hsame as [? Hsame]).
    unfold entry_paths, debtor_name, detail_reference, entry_reference in *.
    unfold _parse_line. rewrite Hind, Hind'. simpl.
    rewrite (bool_decide_eq_false_2 (text ind = Some CD_DEBIT)) by (rewrite Ht; congruence).
    rewrite (bool_decide_eq_false_2 (text ind' = Some CD_DEBIT))
      by (rewrite Hcredit; discriminate).
    repeat match goal with
           | Hs : _find self credit _ = _ |- _ => rewrite Hs; clear Hs
           end.
    reflexivity.
Qed.

Lemma parse_line_unknown_indicator_witness :
  (exists sline,
     _parse_line (Sample.parser "EUR")
       (Sample.ntry "RVSL" "EUR" "-5.00"
          [Sample.parties "Dbtr" "UAB Debtor"; Sample.parties "Cdtr" "AB Creditor"])
       = ok (Some sline) /\
     amount sline = S754_finite true 5629499534213120 (-50) /\
     payee sline = Some "UAB Debtor") /\
  _parse_line (Sample.parser "EUR")
    (Sample.ntry "RVSL" "EUR" "-5.00"
       [Sample.parties "Dbtr" "UAB Debtor"; Sample.parties "Cdtr" "AB Creditor"])
  = _parse_line (Sample.parser "EUR")
      (Sample.ntry "CRDT" "EUR" "-5.00"
         [Sample.parties "Dbtr" "UAB Debtor"; Sample.parties "Cdtr" "AB Creditor"]).
Proof.
  destruct (parse_line_unknown_indicator (Sample.parser "EUR")
              (Sample.ntry "RVSL" "EUR" "-5.00"
                 [Sample.parties "Dbtr" "UAB Debtor"; Sample.parties "Cdtr" "AB Creditor"])
              (Sample.leaf "CdtDbtInd" "RVSL") "RVSL" eq_refl eq_refl)
    as [Hline Hcredit]; [discriminate|].
  split.
  - eexists. split; [reflexivity|].
    apply (Hline _ (Sample.amt "EUR" "-5.00")); reflexivity.
  - apply (Hcredit _ (Sample.leaf "CdtDbtInd" "CRDT")); [reflexivity | reflexivity |].
    repeat constructor.
Defined.

(** C4, as the code has it.  The reference number is the text of the
    transaction-detail reference when that node exists, of the entry-level
    reference otherwise.  With both missing no line is produced: an entry
    that gets as far as the reference fails there, on the dereference of
    [None], with [AttributeError], which is not the plugin's [ParseError]. *)
Theorem parse_line_refnum (self : Iso20022Parser) (ntry : Element) :
  (forall sline, _parse_line self ntry = ok (Some sline) ->
     (forall r, _find self ntry detail_reference = Some r -> refnum sline = text r) /\
     (forall r, _find self ntry detail_reference = None ->
        _find self ntry entry_reference = Some r -> refnum sline = text r)) /\
  (_find self ntry detail_reference = None ->
   _find self ntry entry_reference = None ->
     (forall sline, _parse_line self ntry <> ok (Some sline)) /\
     (forall e, _parse_line self ntry = raise e -> is_ParseError e = false) /\
     (forall ind amtnode a d du,
        _find self ntry "CdtDbtInd" = Some ind ->
        _find self ntry "Amt" = Some amtnode ->
        get amtnode "Ccy" = currency (statement self) ->
        _parse_amount amtnode = ok a ->
        _parse_date self (_find self ntry "ValDt") = ok d ->
        _parse_date self (_find self ntry "BookgDt") = ok du ->
        _parse_line self ntry = raise AttributeError)).
Proof.
  split.
  - intros sline Hok.
    apply parse_line_ok in Hok
      as (ind & amtnode & a & ref & _ & _ & _ & _ & _ & _ & Href & Hrefnum & _).
    split.
    + intros r Hr. rewrite Hr in Href. injection Href as <-. exact Hrefnum.
    + intros r Hnone Hr. rewrite Hnone, Hr in Href. injection Href as <-. exact Hrefnum.
  - intros Hdetail Hentry. split; [|split].
    + intros sline Hok.
      apply parse_line_ok in Hok
        as (ind & amtnode & a & ref & _ & _ & _ & _ & _ & _ & Href & _).
      rewrite Hdetail, Hentry in Href. discriminate.
    + intros e. apply parse_line_raise.
    + intros ind amtnode a d du Hind Hamt Hccy Ha Hd Hdu.
      unfold _parse_line. rewrite Hind, Hamt. simpl.
      rewrite bool_decide_eq_true_2 by exact Hccy. simpl.
      rewrite Ha. simpl.
      fold detail_reference entry_reference.
      destruct (bool_decide (text ind = Some CD_DEBIT));
        rewrite Hd; simpl; rewrite Hdu; simpl; rewrite Hdetail, Hentry; reflexivity.
Qed.

Lemma parse_line_refnum_witness :
  (exists sline,
     _parse_line (Sample.parser "EUR")
       (Sample.ntry "DBIT" "EUR" "0.29"
          [Sample.elem "Refs" [Sample.leaf "AcctSvcrRef" "2015123100000001"]])
       = ok (Some sline) /\ refnum sline = Some "2015123100000001") /\
  _parse_line (Sample.parser "EUR")
    (Sample.elem "Ntry"
       [Sample.amt "EUR" "0.29"; Sample.leaf "CdtDbtInd" "DBIT";
        Sample.on_date "BookgDt" "2015-12-31"; Sample.on_date "ValDt" "2016-01-01"])
  = raise AttributeError.
Proof.
  split.
  - eexists. split; [reflexivity|].
    destruct (parse_line_refnum (Sample.parser "EUR")
                (Sample.ntry "DBIT" "EUR" "0.29"
                   [Sample.elem "Refs" [Sample.leaf "AcctSvcrRef" "2015123100000001"]]))
      as [Hfound _].
    destruct (Hfound _ eq_refl) as [Hdetail _].
    exact (Hdetail (Sample.leaf "AcctSvcrRef" "2015123100000001") eq_refl).
  - destruct (parse_line_refnum (Sample.parser "EUR")
                (Sample.elem "Ntry"
                   [Sample.amt "EUR" "0.29"; Sample.leaf "CdtDbtInd" "DBIT";
                    Sample.on_date "BookgDt" "2015-12-31";
                    Sample.on_date "ValDt" "2016-01-01"]))
      as [_ Hmissing].
    destruct (Hmissing eq_refl eq_refl) as (_ & _ & Hraise).
    apply (Hraise (Sample.leaf "CdtDbtInd" "DBIT") (Sample.amt "EUR" "0.29")
             (S754_finite false 5224175567749775 (-54))
             (Some (mkDatetime 2016 1 1 0 0 0)) (Some (mkDatetime 2015 12 31 0 0 0)));
      reflexivity.
Defined.

(** C4 as stated fails on the kind of failure: an entry with no reference at
    either place raises [AttributeError], not a [ParseError]. *)
Lemma parse_line_refnum_counterexample :
  _find (Sample.parser "EUR")
    (Sample.elem "Ntry"
       [Sample.amt "EUR" "0.29"; Sample.leaf "CdtDbtInd" "DBIT";
        Sample.on_date "BookgDt" "2015-12-31"; Sample.on_date "ValDt" "2016-01-01"])
    detail_reference = None /\
  _find (Sample.parser "EUR")
    (Sample.elem "Ntry"
       [Sample.amt "EUR" "0.29"; Sample.leaf "CdtDbtInd" "DBIT";
        Sample.on_date "BookgDt" "2015-12-31"; Sample.on_date "ValDt" "2016-01-01"])
    entry_reference = None /\
  _parse_line (Sample.parser "EUR")
    (Sample.elem "Ntry"
       [Sample.amt "EUR" "0.29"; Sample.leaf "CdtDbtInd" "DBIT";
        Sample.on_date "BookgDt" "2015-12-31"; Sample.on_date "ValDt" "2016-01-01"])
  = raise AttributeError /\
  is_ParseError AttributeError = false.
Proof. repeat split; reflexivity. Qed.

(** ** [_parse_lines] *)

Lemma parse_line_context self self' ntry :
  same_context self self' -> _parse_line self ntry = _parse_line self' ntry.
Proof.
  destruct self as [c [l cur b a sb sd eb ed] x].
  destruct self' as [c' [l' cur' b' a' sb' sd' eb' ed'] x'].
  intros [Hx Hc]. simpl in Hx, Hc. subst. reflexivity.
Qed.

Lemma parse_line_skipped self ntry :
  _parse_line self ntry = ok None -> same_currency self ntry = false.
Proof.
  unfold _parse_line, same_currency. intros H.
  apply bind_ok in H as (ind & _ & H).
  apply bind_ok in H as (amtnode & Hamt%deref_ok & H).
  rewrite Hamt.
  destruct (bool_decide (get amtnode "Ccy" = currency (statement self)));
    simpl in H; [|reflexivity].
  apply bind_ok in H as (a & _ & H).
  destruct (bool_decide (text ind = Some CD_DEBIT));
    apply bind_ok in H as (d & _ & H);
    apply bind_ok in H as (du & _ & H);
    apply bind_ok in H as (ref & _ & H); discriminate.
Qed.

Lemma parse_line_kept self ntry sline :
  _parse_line self ntry = ok (Some sline) -> same_currency self ntry = true.
Proof.
  intros H. apply parse_line_ok in H as (ind & amtnode & a & ref & _ & Hamt & Hccy & _).
  unfold same_currency. rewrite Hamt. now apply bool_decide_eq_true_2.
Qed.

Lemma parse_lines_loop_ok self0 ntries : forall self self',
  same_context self0 self ->
  _parse_lines_loop self ntries = ok self' ->
  same_context self0 self' /\
  exists kept,
    lines (statement self') = (lines (statement self) ++ kept)%list /\
    Forall2 (fun ntry sline => _parse_line self0 ntry = ok (Some sline))
            (List.filter (same_currency self0) ntries) kept.
Proof.
  induction ntries as [|ntry ntries IH]; intros self self' Hctx H; simpl in H.
  - injection H as <-. split; [exact Hctx|]. exists []. split; [now rewrite app_nil_r | constructor].
  - apply bind_ok in H as (self1 & Hstep & H).
    unfold _parse_lines_step in Hstep.
    apply bind_ok in Hstep as (sline & Hline & Hstep).
    rewrite <- (parse_line_context _ _ ntry Hctx) in Hline.
    destruct sline as [sline|]; injection Hstep as <-.
    + destruct (IH (set_statement self (append_line (statement self) sline)) self')
        as (Hctx' & kept & Hlines & Hall); [exact Hctx | exact H |].
      split; [exact Hctx'|]. exists (sline :: kept). split.
      * rewrite Hlines. simpl. now rewrite <- app_assoc.
      * simpl. rewrite (parse_line_kept _ _ _ Hline). now constructor.
    + destruct (IH self self') as (Hctx' & kept & Hlines & Hall); [exact Hctx | exact H |].
      split; [exact Hctx'|]. exists kept. split; [exact Hlines|].
      simpl. now rewrite (parse_line_skipped _ _ Hline).
Qed.




(** ** [_parse_statement_properties] and [parse] *)

Lemma statement_properties_currency self tree self' :
  _parse_statement_properties self tree = ok self' ->
  exists stmt,
    find (xmlns self) tree statement_path = Some stmt /\
    xmlns self' = xmlns self /\
    currency (statement self') =
      (if truthy (account_currency (xmlns self) stmt)
       then account_currency (xmlns self) stmt
       else currency (statement self)).
Proof.
  unfold _parse_statement_properties. intros H.
  apply bind_ok in H as (stmt & Hstmt%deref_ok & H).
  exists stmt. split; [exact Hstmt|].
  fold (account_currency (xmlns self) stmt) in H.
  apply bind_ok in H as (st & Hst & H).
  apply bind_ok in H as ([bal_amts bal_dates] & _ & H).
  destruct (bool_decide (bal_amts = ∅)); [discriminate|].
  apply bind_ok in H as (iban & _ & H).
  apply bind_ok in H as (oa & _ & H).
  apply bind_ok in H as (od & _ & H).
  apply bind_ok in H as (ca & _ & H).
  apply bind_ok in H as (cd & _ & H).
  unfold ok in H. injection H as <-. simpl. split; [reflexivity|].
  destruct (truthy (account_currency (xmlns self) stmt)).
  - injection Hst as <-. reflexivity.
  - destruct (currency (statement self)) eqn:Hc; [|discriminate].
    injection Hst as <-. exact Hc.
Qed.

Lemma statement_properties_no_currency self tree stmt :
  find (xmlns self) tree statement_path = Some stmt ->
  truthy (account_currency (xmlns self) stmt) = false ->
  currency (statement self) = None ->
  _parse_statement_properties self tree = raise (ParseError 0 no_currency_message).
Proof.
  intros Hstmt Hacct Hnone. unfold _parse_statement_properties.
  fold statement_path. rewrite Hstmt. simpl.
  fold (account_currency (xmlns self) stmt). now rewrite Hacct, Hnone.
Qed.

(** C1.  On a document of a recognised namespace with a statement element:
    when the account carries a currency code, a parse that completes yields
    that code verbatim as the record's currency, whatever default the caller
    configured; when it carries none, the record's currency is the
    configured default; and with neither, the parse fails with the
    [ParseError] that asks for a currency in the configuration. *)
Theorem parse_currency_resolution (self : Iso20022Parser) (tree stmt : Element) :
  String.prefix ISO20022_NAMESPACE_ROOT (_get_namespace tree) = true ->
  find {["s" := _get_namespace tree]} tree statement_path = Some stmt ->
  (forall code st,
     account_currency {["s" := _get_namespace tree]} stmt = Some code ->
     code <> "" ->
     parse self tree = ok st ->
     currency st = Some code) /\
  (forall default st,
     truthy (account_currency {["s" := _get_namespace tree]} stmt) = false ->
     self_currency self = Some default ->
     parse self tree = ok st ->
     currency st = Some default) /\
  (truthy (account_currency {["s" := _get_namespace tree]} stmt) = false ->
   self_currency self = None ->
   parse self tree = raise (ParseError 0 no_currency_message)).
Proof.
  intros Hns Hstmt.
  assert (Hok : forall st, parse self tree = ok st ->
            currency st =
              (if truthy (account_currency {["s" := _get_namespace tree]} stmt)
               then account_currency {["s" := _get_namespace tree]} stmt
               else self_currency self)).
  { intros st H. unfold parse in H. rewrite Hns in H. simpl in H.
    apply bind_ok in H as (self1 & Hprops & H).
    apply bind_ok in H as (self2 & Hlines & H). injection H as <-.
    apply statement_properties_currency in Hprops as (stmt' & Hstmt' & Hx & Hc).
    simpl in Hstmt', Hx, Hc. rewrite Hstmt in Hstmt'. injection Hstmt' as <-.
    unfold _parse_lines in Hlines.
    apply (parse_lines_loop_ok self1) in Hlines as ([_ Hsame] & _);
      [|split; reflexivity].
    now rewrite <- Hsame, Hc. }
  split; [|split].
  - intros code st Hcode Hne H. rewrite (Hok st H), Hcode.
    destruct code; [contradiction | reflexivity].
  - intros default st Hacct Hdefault H. now rewrite (Hok st H), Hacct.
  - intros Hacct Hnone. unfold parse. rewrite Hns. simpl.
    erewrite statement_properties_no_currency; [reflexivity | exact Hstmt | exact Hacct |].
    simpl. exact Hnone.
Qed.

Lemma parse_currency_resolution_witness :
  (exists st, parse (Iso20022Parser_new (Some "USD")) Sample.simple = ok st /\
              currency st = Some "EUR") /\
  (exists st, parse (Iso20022Parser_new (Some "EUR"))
                (Sample.document
                   [Sample.elem "Acct" [Sample.elem "Id" [Sample.leaf "IBAN" "LT000000000000000000"]];
                    Sample.opening; Sample.closing; Sample.fee]) = ok st /\
              currency st = Some "EUR") /\
  parse (Iso20022Parser_new None)
    (Sample.document
       [Sample.elem "Acct" [Sample.elem "Id" [Sample.leaf "IBAN" "LT000000000000000000"]];
        Sample.opening; Sample.closing; Sample.fee])
  = raise (ParseError 0 no_currency_message).
Proof.
  split; [|split].
  - eexists. split; [reflexivity|].
    destruct (parse_currency_resolution (Iso20022Parser_new (Some "USD")) Sample.simple
                _ eq_refl eq_refl) as (Hcode & _ & _).
    apply (Hcode "EUR"); [reflexivity | discriminate | reflexivity].
  - eexists. split; [reflexivity|].
    destruct (parse_currency_resolution (Iso20022Parser_new (Some "EUR"))
                (Sample.document
                   [Sample.elem "Acct" [Sample.elem "Id" [Sample.leaf "IBAN" "LT000000000000000000"]];
                    Sample.opening; Sample.closing; Sample.fee])
                _ eq_refl eq_refl) as (_ & Hdefault & _).
    apply (Hdefault "EUR"); reflexivity.
  - destruct (parse_currency_resolution (Iso20022Parser_new None)
                (Sample.document
                   [Sample.elem "Acct" [Sample.elem "Id" [Sample.leaf "IBAN" "LT000000000000000000"]];
                    Sample.opening; Sample.closing; Sample.fee])
                _ eq_refl eq_refl) as (_ & _ & Hnone).
    apply Hnone; reflexivity.
Defined.

(** C3: the guard after the balance loop tests whether any balance at all
    survived the currency filter, not whether both the opening and the
    closing one did.  With no balance in the statement's currency the parse
    fails with the plugin's [ParseError]; with only one of the two (alone, or
    next to a balance of another code) it runs into the dict lookup of the
    other and escapes with [KeyError]. *)
Theorem parse_single_balance_key_error :
  parse (Iso20022Parser_new None)
    (Sample.document [Sample.acct; Sample.closing; Sample.fee])
  = raise (KeyError (Some "OPBD")) /\
  parse (Iso20022Parser_new None)
    (Sample.document [Sample.acct; Sample.opening; Sample.fee])
  = raise (KeyError (Some "CLBD")) /\
  parse (Iso20022Parser_new None)
    (Sample.document
       [Sample.acct; Sample.bal "PRCD" "EUR" "306.53" "2015-11-30";
        Sample.closing; Sample.fee])
  = raise (KeyError (Some "OPBD")) /\
  parse (Iso20022Parser_new None)
    (Sample.document
       [Sample.acct; Sample.bal "OPBD" "USD" "306.53" "2015-12-01";
        Sample.bal "CLBD" "USD" "125.52" "2015-12-31"; Sample.fee])
  = raise (ParseError 0 (no_balance_message (Some "EUR"))).
Proof. repeat split; vm_compute; reflexivity. Qed.

(** ** The balance loop *)



Section BalanceLoop.

Context (self : Iso20022Parser).




End BalanceLoop.

Lemma getitem_ok {V : Type} (d : gmap (option string) V) k v :
  getitem d k = ok v <-> d !! Some k = Some v.
Proof.
  unfold getitem. destruct (d !! Some k); split; intros H;
    try discriminate; [unfold ok in H|unfold ok]; congruence.
Qed.

Lemma parse_balances_each self bals : forall d dfin,
  _parse_balances self d bals = ok dfin ->
  forall bal, In bal bals -> exists d0 d1, _parse_balance self d0 bal = ok d1.
Proof.
  induction bals as [|b bals IH]; intros d dfin H bal Hin; [destruct Hin|].
  simpl in H. apply bind_ok in H as (d1 & Hstep & H).
  destruct Hin as [<-|Hin]; [eauto | exact (IH _ _ H bal Hin)].
Qed.

(** A balance in the statement's currency has its amount and its date
    parsed, whatever its code. *)
Lemma parse_balance_parsed self d0 bal d1 amt :
  _parse_balance self d0 bal = ok d1 ->
  find (xmlns self) bal "./s:Amt" = Some amt ->
  get amt "Ccy" = currency (statement self) ->
  (exists a, _parse_amount amt = ok a) /\
  (exists d, _parse_date self (find (xmlns self) bal "./s:Dt") = ok d).
Proof.
  unfold _parse_balance. destruct d0 as [amts dates]. intros H Hamt Hccy.
  rewrite Hamt in H. simpl in H.
  rewrite bool_decide_eq_true_2 in H by exact Hccy. simpl in H.
  apply bind_ok in H as (a & Ha & H).
  apply bind_ok in H as (cd & _ & H).
  apply bind_ok in H as (d & Hd & H). eauto.
Qed.










(** * Further properties *)

(** ** [_get_namespace] *)

Lemma list_ascii_of_string_app (s1 s2 : string) :
  list_ascii_of_string (s1 ++ s2)
  = (list_ascii_of_string s1 ++ list_ascii_of_string s2)%list.
Proof. induction s1 as [|c s1 IH]; simpl; [reflexivity | now rewrite IH]. Qed.

Lemma last_brace_none (local : string) :
  contains_char "}" local = false ->
  last_brace (list_ascii_of_string local) = None.
Proof.
  induction local as [|c local IH]; simpl; [reflexivity|].
  intros [Hc Hl]%orb_false_iff. rewrite (IH Hl), Hc.
  now destruct (Ascii.eqb c "010").
Qed.

Lemma last_brace_clark (uri local : string) :
  contains_char "010" uri = false ->
  contains_char "}" local = false ->
  last_brace (list_ascii_of_string (uri ++ String "}" local))
  = Some (list_ascii_of_string uri).
Proof.
  intros Huri Hlocal. induction uri as [|c uri IH]; simpl.
  - now rewrite (last_brace_none _ Hlocal).
  - simpl in Huri. apply orb_false_iff in Huri as [Hc Huri].
    now rewrite Hc, (IH Huri).
Qed.

(** The namespace of a tag in Clark notation is read back whole: the group
    of the regular expression ends at the last closing brace of the first
    line, which is the one before the local name as long as the local name
    holds no brace and the namespace no newline.  Every tag that does not
    open with a brace has the empty namespace. *)
Theorem get_namespace_clark (a : gmap string string) (t : option string)
    (kids : list Element) :
  (forall uri local : string,
     contains_char "010" uri = false ->
     contains_char "}" local = false ->
     _get_namespace (mkElement (clark uri local) a t kids) = uri) /\
  (forall name : string,
     String.prefix "{" name = false ->
     _get_namespace (mkElement name a t kids) = "").
Proof.
  split.
  - intros uri local Huri Hlocal. unfold _get_namespace.
    change (list_ascii_of_string (tag (mkElement (clark uri local) a t kids)))
      with ("{"%char :: list_ascii_of_string (uri ++ String "}" local)).
    cbv iota. rewrite (last_brace_clark _ _ Huri Hlocal).
    apply string_of_list_ascii_of_string.
  - intros name Hname. unfold _get_namespace.
    destruct name as [|c rest]; [reflexivity|].
    change (list_ascii_of_string (tag (mkElement (String c rest) a t kids)))
      with (c :: list_ascii_of_string rest).
    destruct c as [[] [] [] [] [] [] [] []]; try reflexivity.
    destruct rest; discriminate.
Qed.

Lemma get_namespace_clark_witness :
  _get_namespace (Sample.elem "Document" []) = Sample.ns /\
  _get_namespace (mkElement "a}b" ∅ None []) = "".
Proof.
  destruct (get_namespace_clark ∅ None []) as [Hclark Hplain].
  split.
  - exact (Hclark Sample.ns "Document" eq_refl eq_refl).
  - exact (Hplain "a}b" eq_refl).
Defined.

(** ** The exceptions of [parse] *)

Lemma parse_date_builtin self dtnode e :
  _parse_date self dtnode = raise e -> is_builtin_error e = true.
Proof. intros H. apply parse_date_raise in H as [->|[->| ->]]; reflexivity. Qed.

Lemma parse_line_builtin self ntry e :
  _parse_line self ntry = raise e -> is_builtin_error e = true.
Proof.
  unfold _parse_line. intros H.
  apply bind_raise in H as [[_ ->]%deref_raise|(ind & _ & H)]; [reflexivity|].
  apply bind_raise in H as [[_ ->]%deref_raise|(amtnode & _ & H)]; [reflexivity|].
  destruct (bool_decide (get amtnode "Ccy" = currency (statement self)));
    simpl in H; [|discriminate].
  apply bind_raise in H as [[->| ->]%py_float_raise|(a & _ & H)]; try reflexivity.
  destruct (bool_decide (text ind = Some CD_DEBIT));
    (apply bind_raise in H as [H|(d & _ & H)]; [now apply parse_date_builtin in H|];
     apply bind_raise in H as [H|(du & _ & H)]; [now apply parse_date_builtin in H|];
     apply bind_raise in H as [[_ ->]%deref_raise|(ref & _ & H)];
     [reflexivity | discriminate]).
Qed.

Lemma parse_lines_loop_builtin ntries : forall self e,
  _parse_lines_loop self ntries = raise e -> is_builtin_error e = true.
Proof.
  induction ntries as [|ntry ntries IH]; intros self e H; simpl in H; [discriminate|].
  apply bind_raise in H as [H|(self1 & _ & H)]; [|exact (IH _ _ H)].
  unfold _parse_lines_step in H.
  apply bind_raise in H as [H|(sline & _ & H)]; [exact (parse_line_builtin _ _ _ H)|].
  destruct sline; discriminate.
Qed.

Lemma parse_balance_builtin self dicts bal e :
  _parse_balance self dicts bal = raise e -> is_builtin_error e = true.
Proof.
  unfold _parse_balance. destruct dicts as [amts dates]. intros H.
  apply bind_raise in H as [[_ ->]%deref_raise|(amt & _ & H)]; [reflexivity|].
  destruct (bool_decide (get amt "Ccy" = currency (statement self)));
    simpl in H; [|discriminate].
  apply bind_raise in H as [[->| ->]%py_float_raise|(a & _ & H)]; try reflexivity.
  apply bind_raise in H as [[_ ->]%deref_raise|(cd & _ & H)]; [reflexivity|].
  apply bind_raise in H as [H|(d & _ & H)]; [now apply parse_date_builtin in H|].
  discriminate.
Qed.

Lemma parse_balances_builtin self bals : forall dicts e,
  _parse_balances self dicts bals = raise e -> is_builtin_error e = true.
Proof.
  induction bals as [|bal bals IH]; intros dicts e H; simpl in H; [discriminate|].
  apply bind_raise in H as [H|(d1 & _ & H)];
    [exact (parse_balance_builtin _ _ _ _ H) | exact (IH _ _ H)].
Qed.

Lemma getitem_raise {V : Type} (d : gmap (option string) V) k e :
  getitem d k = raise e -> e = KeyError (Some k).
Proof. unfold getitem. destruct (d !! Some k); [discriminate | now intros [= <-]]. Qed.

Lemma statement_properties_raise self tree e :
  _parse_statement_properties self tree = raise e ->
  is_builtin_error e = true \/
  e = KeyError (Some "OPBD") \/ e = KeyError (Some "CLBD") \/
  e = ParseError 0 no_currency_message \/
  exists c, e = ParseError 0 (no_balance_message (Some c)).
Proof.
  unfold _parse_statement_properties. intros H.
  apply bind_raise in H as [[_ ->]%deref_raise|(stmt & _ & H)]; [now left|].
  apply bind_raise in H as [H|(st & Hst & H)].
  { destruct (truthy _); [discriminate|].
    destruct (currency (statement self)); [discriminate|].
    injection H as <-. tauto. }
  assert (Hc : exists c, currency st = Some c).
  { destruct (node_text _) as [[|x c]|] eqn:E; simpl in Hst.
    - destruct (currency (statement self)) eqn:Ec; [|discriminate].
      unfold ok in Hst. injection Hst as <-. eauto.
    - unfold ok in Hst. injection Hst as <-. simpl. eauto.
    - destruct (currency (statement self)) eqn:Ec; [|discriminate].
      unfold ok in Hst. injection Hst as <-. eauto. }
  apply bind_raise in H as [H|([amts dates] & _ & H)];
    [left; exact (parse_balances_builtin _ _ _ _ H)|].
  destruct (bool_decide (amts = ∅)).
  { injection H as <-. destruct Hc as [c ->]. right. right. right. right. eauto. }
  apply bind_raise in H as [[_ ->]%deref_raise|(iban & _ & H)]; [now left|].
  apply bind_raise in H as [->%getitem_raise|(oa & _ & H)]; [tauto|].
  apply bind_raise in H as [->%getitem_raise|(od & _ & H)]; [tauto|].
  apply bind_raise in H as [->%getitem_raise|(ca & _ & H)]; [tauto|].
  apply bind_raise in H as [->%getitem_raise|(cd & _ & H)]; [tauto|].
  discriminate.
Qed.

(** Once the file is loaded into a tree, whatever the tree, the rest of a
    failing [parse] (namespace check, statement properties, lines) raises
    either an exception of the interpreter (a missing node, an ill-formed
    amount or date), a [KeyError] for [OPBD] or [CLBD], or the plugin's
    [ParseError], always at line 0 and with one of three messages: the
    namespace is not recognised, no currency is known, no balance was found
    for the currency.  The first of these is raised exactly when the
    namespace of the root does not start with the camt.053 prefix.  The
    failures of the loading itself, of a file that is missing or not
    well-formed XML, come before and are not among these. *)
Theorem parse_exceptions (self : Iso20022Parser) (tree : Element) :
  (forall e, parse self tree = raise e ->
     is_builtin_error e = true \/
     e = KeyError (Some "OPBD") \/ e = KeyError (Some "CLBD") \/
     e = ParseError 0 cannot_recognize_message \/
     e = ParseError 0 no_currency_message \/
     exists c, e = ParseError 0 (no_balance_message (Some c))) /\
  (parse self tree = raise (ParseError 0 cannot_recognize_message) <->
   String.prefix ISO20022_NAMESPACE_ROOT (_get_namespace tree) = false).
Proof.
  assert (Hcases : forall e, parse self tree = raise e ->
            (String.prefix ISO20022_NAMESPACE_ROOT (_get_namespace tree) = false /\
             e = ParseError 0 cannot_recognize_message) \/
            (String.prefix ISO20022_NAMESPACE_ROOT (_get_namespace tree) = true /\
             (is_builtin_error e = true \/
              e = KeyError (Some "OPBD") \/ e = KeyError (Some "CLBD") \/
              e = ParseError 0 no_currency_message \/
              exists c, e = ParseError 0 (no_balance_message (Some c))))).
  { intros e H. unfold parse in H.
    destruct (String.prefix ISO20022_NAMESPACE_ROOT (_get_namespace tree));
      simpl in H; [right|left; split; [reflexivity | now injection H as <-]].
    split; [reflexivity|].
    apply bind_raise in H as [H|(self1 & _ & H)];
      [exact (statement_properties_raise _ _ _ H)|].
    apply bind_raise in H as [H|(self2 & _ & H)]; [|discriminate].
    left. exact (parse_lines_loop_builtin _ _ _ H). }
  split.
  - intros e H. destruct (Hcases e H) as [[_ ->]|[_ Hrest]]; tauto.
  - split.
    + intros H. destruct (Hcases _ H) as [[Hns _]|[_ Hrest]]; [exact Hns|].
      destruct Hrest as [Hb|[Hk|[Hk|[Hm|[c Hm]]]]]; discriminate.
    + intros Hns. unfold parse. now rewrite Hns.
Qed.

Lemma parse_exceptions_witness :
  parse (Iso20022Parser_new (Some "EUR"))
    (mkElement "{urn:iso:std:iso:20022:tech:xsd:pain.001.001.03}Document" ∅ None [])
  = raise (ParseError 0 cannot_recognize_message).
Proof.
  apply (parse_exceptions (Iso20022Parser_new (Some "EUR"))
           (mkElement "{urn:iso:std:iso:20022:tech:xsd:pain.001.001.03}Document" ∅ None [])).
  reflexivity.
Defined.

(** ** The statement properties *)

(** What a successful extraction of the statement properties went through. *)
Lemma statement_properties_inv self tree self1 :
  _parse_statement_properties self tree = ok self1 ->
  exists stmt c st amts dates iban oa od ca cd,
    find (xmlns self) tree statement_path = Some stmt /\
    effective_currency self stmt = Some c /\
    currency st = Some c /\
    lines st = lines (statement self) /\
    _parse_balances (set_statement self st) (∅, ∅)
      (findall (xmlns self) stmt "./s:Bal") = ok (amts, dates) /\
    find (xmlns self) stmt "./s:Acct/s:Id/s:IBAN" = Some iban /\
    amts !! Some "OPBD" = Some oa /\ dates !! Some "OPBD" = Some od /\
    amts !! Some "CLBD" = Some ca /\ dates !! Some "CLBD" = Some cd /\
    xmlns self1 = xmlns self /\
    statement self1 =
      mkStatement (lines st) (Some c)
        (node_text
           match find (xmlns self) stmt "./s:Acct/s:Svcr/s:FinInstnId/s:BIC" with
           | Some b => Some b
           | None => find (xmlns self) stmt "./s:Acct/s:Svcr/s:FinInstnId/s:Nm"
           end)
        (text iban) (Some oa) od (Some ca) cd.
Proof.
  unfold _parse_statement_properties. intros H.
  apply bind_ok in H as (stmt & Hstmt%deref_ok & H).
  fold (account_currency (xmlns self) stmt) in H.
  apply bind_ok in H as (st & Hst & H).
  assert (Hc : exists c, effective_currency self stmt = Some c /\ currency st = Some c
                         /\ lines st = lines (statement self)).
  { unfold effective_currency.
    destruct (account_currency (xmlns self) stmt) as [[|x c]|]; simpl in *.
    - destruct (currency (statement self)) eqn:Ec; [|discriminate].
      unfold ok in Hst. injection Hst as <-. eauto.
    - unfold ok in Hst. injection Hst as <-. simpl. eauto.
    - destruct (currency (statement self)) eqn:Ec; [|discriminate].
      unfold ok in Hst. injection Hst as <-. eauto. }
  destruct Hc as (c & Heff & Hcur & Hlines).
  apply bind_ok in H as ([amts dates] & Hloop & H).
  destruct (bool_decide (amts = ∅)); [discriminate|].
  apply bind_ok in H as (iban & Hiban%deref_ok & H).
  apply bind_ok in H as (oa & Hoa%getitem_ok & H).
  apply bind_ok in H as (od & Hod%getitem_ok & H).
  apply bind_ok in H as (ca & Hca%getitem_ok & H).
  apply bind_ok in H as (cd & Hcd%getitem_ok & H).
  unfold ok in H. injection H as <-.
  exists stmt, c, st, amts, dates, iban, oa, od, ca, cd. simpl. rewrite Hcur.
  repeat split; assumption || reflexivity.
Qed.

Lemma parse_balances_foreign self bals : forall dicts,
  Forall (fun bal => exists amt,
            find (xmlns self) bal "./s:Amt" = Some amt /\
            get amt "Ccy" <> currency (statement self)) bals ->
  _parse_balances self dicts bals = ok dicts.
Proof.
  induction bals as [|bal bals IH]; intros dicts Hall; [reflexivity|].
  apply Forall_cons in Hall as [(amt & Hamt & Hccy) Hall]. simpl.
  unfold _parse_balance at 1. destruct dicts as [amts dates]. rewrite Hamt. simpl.
  rewrite bool_decide_eq_false_2 by exact Hccy. simpl. now apply IH.
Qed.

(** When the currency of the statement is known but no balance element
    carries it (none at all, or each in another currency), the extraction
    fails with the [ParseError] that names the currency, whatever else the
    statement holds. *)
Theorem statement_properties_no_balance
    (self : Iso20022Parser) (tree stmt : Element) (c : string) :
  find (xmlns self) tree statement_path = Some stmt ->
  effective_currency self stmt = Some c ->
  Forall (fun bal => exists amt,
            find (xmlns self) bal "./s:Amt" = Some amt /\
            get amt "Ccy" <> Some c)
         (findall (xmlns self) stmt "./s:Bal") ->
  _parse_statement_properties self tree
  = raise (ParseError 0 (no_balance_message (Some c))).
Proof.
  intros Hstmt Heff Hall. unfold _parse_statement_properties.
  fold statement_path. rewrite Hstmt. simpl.
  fold (account_currency (xmlns self) stmt).
  unfold effective_currency in Heff.
  destruct (truthy (account_currency (xmlns self) stmt)); simpl.
  - rewrite parse_balances_foreign; [simpl; now rewrite Heff|].
    simpl. now rewrite Heff.
  - rewrite Heff. simpl.
    rewrite parse_balances_foreign; [simpl; now rewrite Heff|].
    simpl. now rewrite Heff.
Qed.

Lemma statement_properties_no_balance_witness :
  _parse_statement_properties (Sample.parser "USD")
    (Sample.document [Sample.acct; Sample.bal "OPBD" "USD" "1.00" "2015-12-01"])
  = raise (ParseError 0 (no_balance_message (Some "EUR"))) /\
  _parse_statement_properties (Sample.parser "USD") (Sample.document [Sample.acct])
  = raise (ParseError 0 (no_balance_message (Some "EUR"))).
Proof.
  split.
  - apply (statement_properties_no_balance (Sample.parser "USD") _
             (Sample.elem "Stmt" [Sample.acct; Sample.bal "OPBD" "USD" "1.00" "2015-12-01"]));
      [reflexivity | reflexivity |].
    repeat constructor. exists (Sample.amt "USD" "1.00"). split; [reflexivity | discriminate].
  - apply (statement_properties_no_balance (Sample.parser "USD") _
             (Sample.elem "Stmt" [Sample.acct])); [reflexivity | reflexivity |].
    constructor.
Defined.

(** The account fields of a statement whose properties are extracted: the
    account id is the text of the IBAN element, which has to be there; the
    bank id is the text of the BIC element when there is one, of the
    institution's name element otherwise, and [None] when both are missing. *)
Theorem statement_properties_account
    (self self1 : Iso20022Parser) (tree stmt : Element) :
  find (xmlns self) tree statement_path = Some stmt ->
  _parse_statement_properties self tree = ok self1 ->
  (exists iban,
     find (xmlns self) stmt "./s:Acct/s:Id/s:IBAN" = Some iban /\
     account_id (statement self1) = text iban) /\
  (forall bic,
     find (xmlns self) stmt "./s:Acct/s:Svcr/s:FinInstnId/s:BIC" = Some bic ->
     bank_id (statement self1) = text bic) /\
  (find (xmlns self) stmt "./s:Acct/s:Svcr/s:FinInstnId/s:BIC" = None ->
   bank_id (statement self1)
   = node_text (find (xmlns self) stmt "./s:Acct/s:Svcr/s:FinInstnId/s:Nm")).
Proof.
  intros Hstmt H.
  apply statement_properties_inv in H
    as (stmt' & c & st & amts & dates & iban & oa & od & ca & cd
        & Hstmt' & _ & _ & _ & _ & Hiban & _ & _ & _ & _ & _ & Hst).
  rewrite Hstmt in Hstmt'. injection Hstmt' as <-. rewrite Hst. simpl.
  split; [eauto|]. split.
  - intros bic ->. reflexivity.
  - intros ->. reflexivity.
Qed.

Lemma statement_properties_account_witness :
  exists self1,
    _parse_statement_properties (Sample.parser "EUR")
      (Sample.document
         [Sample.elem "Acct"
            [Sample.elem "Id" [Sample.leaf "IBAN" "CH2609000000924238861"];
             Sample.elem "Svcr" [Sample.elem "FinInstnId" [Sample.leaf "Nm" "PostFinance"]]];
          Sample.opening; Sample.closing]) = ok self1 /\
    bank_id (statement self1) = Some "PostFinance" /\
    account_id (statement self1) = Some "CH2609000000924238861".
Proof.
  eexists. split; [vm_compute; reflexivity|].
  destruct (statement_properties_account (Sample.parser "EUR") _
              (Sample.document
                 [Sample.elem "Acct"
                    [Sample.elem "Id" [Sample.leaf "IBAN" "CH2609000000924238861"];
                     Sample.elem "Svcr" [Sample.elem "FinInstnId" [Sample.leaf "Nm" "PostFinance"]]];
                  Sample.opening; Sample.closing])
              (Sample.elem "Stmt"
                 [Sample.elem "Acct"
                    [Sample.elem "Id" [Sample.leaf "IBAN" "CH2609000000924238861"];
                     Sample.elem "Svcr" [Sample.elem "FinInstnId" [Sample.leaf "Nm" "PostFinance"]]];
                  Sample.opening; Sample.closing])
              eq_refl eq_refl) as (_ & _ & Hnm).
  split; [exact (Hnm eq_refl) | reflexivity].
Defined.

(** ** Which balance element a field comes from *)

Lemma parse_balance_lookup self d bal d1 (k : string) :
  _parse_balance self d bal = ok d1 ->
  if is_code (xmlns self) (currency (statement self)) k bal
  then d1.1 !! Some k = balance_amount (xmlns self) bal /\
       d1.2 !! Some k = Some (balance_date self bal)
  else d1.1 !! Some k = d.1 !! Some k /\ d1.2 !! Some k = d.2 !! Some k.
Proof.
  unfold _parse_balance, is_code, balance_amount, balance_date.
  destruct d as [amts dates]. intros H.
  apply bind_ok in H as (amt & Hamt%deref_ok & H). rewrite Hamt.
  destruct (bool_decide (get amt "Ccy" = currency (statement self))); simpl in H.
  - apply bind_ok in H as (a & Ha & H).
    apply bind_ok in H as (cd & Hcd%deref_ok & H). rewrite Hcd.
    apply bind_ok in H as (dt & Hdt & H).
    unfold ok in H. injection H as <-. simpl.
    destruct (bool_decide (text cd = Some k)) eqn:Hk.
    + apply bool_decide_eq_true in Hk. rewrite Hk, Ha, Hdt.
      split; apply lookup_insert_eq.
    + apply bool_decide_eq_false in Hk. split; now apply lookup_insert_ne.
  - unfold ok in H. injection H as <-.
    destruct (find (xmlns self) bal "./s:Tp/s:CdOrPrtry/s:Cd"); simpl; auto.
Qed.

Lemma parse_balances_lookup self (k : string) bals : forall d dfin,
  _parse_balances self d bals = ok dfin ->
  dfin.1 !! Some k
  = match last (List.filter (is_code (xmlns self) (currency (statement self)) k) bals) with
    | Some bal => balance_amount (xmlns self) bal
    | None => d.1 !! Some k
    end /\
  dfin.2 !! Some k
  = match last (List.filter (is_code (xmlns self) (currency (statement self)) k) bals) with
    | Some bal => Some (balance_date self bal)
    | None => d.2 !! Some k
    end.
Proof.
  induction bals as [|bal bals IH]; intros d dfin H; simpl in H.
  - unfold ok in H. injection H as <-. auto.
  - apply bind_ok in H as (d1 & Hstep & H).
    destruct (IH _ _ H) as [IHa IHd]. rewrite IHa, IHd. clear IHa IHd.
    pose proof (parse_balance_lookup _ _ _ _ k Hstep) as Hk. simpl.
    destruct (is_code (xmlns self) (currency (statement self)) k bal).
    + rewrite last_cons. destruct (last _); [auto | exact Hk].
    + destruct (last _); [auto | exact Hk].
Qed.

(** The opening balance and date of the record are those of the last [Bal]
    element, in document order, that is in the statement's currency and
    carries the code [OPBD]; the closing ones those of the last such element
    with the code [CLBD].  Earlier elements of the same code are
    overwritten, and elements in another currency never reach the record. *)
Theorem statement_properties_last_balance
    (self self1 : Iso20022Parser) (tree stmt : Element) :
  find (xmlns self) tree statement_path = Some stmt ->
  _parse_statement_properties self tree = ok self1 ->
  exists opening closing,
    last (List.filter (is_code (xmlns self) (currency (statement self1)) "OPBD")
                      (findall (xmlns self) stmt "./s:Bal")) = Some opening /\
    last (List.filter (is_code (xmlns self) (currency (statement self1)) "CLBD")
                      (findall (xmlns self) stmt "./s:Bal")) = Some closing /\
    start_balance (statement self1) = balance_amount (xmlns self) opening /\
    start_date (statement self1) = balance_date self opening /\
    end_balance (statement self1) = balance_amount (xmlns self) closing /\
    end_date (statement self1) = balance_date self closing.
Proof.
  intros Hstmt H.
  apply statement_properties_inv in H
    as (stmt' & c & st & amts & dates & iban & oa & od & ca & cd
        & Hstmt' & _ & Hcur & _ & Hloop & _ & Hoa & Hod & Hca & Hcd & _ & Hst).
  rewrite Hstmt in Hstmt'. injection Hstmt' as <-. rewrite Hst. simpl.
  destruct (parse_balances_lookup _ "OPBD" _ _ _ Hloop) as [Ho1 Ho2].
  destruct (parse_balances_lookup _ "CLBD" _ _ _ Hloop) as [Hc1 Hc2].
  simpl in Ho1, Ho2, Hc1, Hc2. rewrite Hcur in Ho1, Ho2, Hc1, Hc2.
  rewrite Hoa in Ho1. rewrite Hod in Ho2. rewrite Hca in Hc1. rewrite Hcd in Hc2.
  destruct (last (List.filter (is_code (xmlns self) (Some c) "OPBD") _)) as [opening|];
    [|rewrite lookup_empty in Ho1; discriminate].
  destruct (last (List.filter (is_code (xmlns self) (Some c) "CLBD") _)) as [closing|];
    [|rewrite lookup_empty in Hc1; discriminate].
  exists opening, closing. injection Ho2 as ->. injection Hc2 as ->.
  repeat split; auto.
Qed.

Lemma statement_properties_last_balance_witness :
  exists self1,
    _parse_statement_properties (Sample.parser "EUR")
      (Sample.document
         [Sample.acct; Sample.bal "OPBD" "EUR" "1.00" "2015-11-01";
          Sample.bal "OPBD" "USD" "9.00" "2015-11-15"; Sample.opening;
          Sample.closing]) = ok self1 /\
    start_balance (statement self1) = balance_amount {["s" := Sample.ns]} Sample.opening.
Proof.
  eexists. split; [vm_compute; reflexivity|].
  destruct (statement_properties_last_balance (Sample.parser "EUR") _
              (Sample.document
                 [Sample.acct; Sample.bal "OPBD" "EUR" "1.00" "2015-11-01";
                  Sample.bal "OPBD" "USD" "9.00" "2015-11-15"; Sample.opening;
                  Sample.closing])
              (Sample.elem "Stmt"
                 [Sample.acct; Sample.bal "OPBD" "EUR" "1.00" "2015-11-01";
                  Sample.bal "OPBD" "USD" "9.00" "2015-11-15"; Sample.opening;
                  Sample.closing])
              eq_refl eq_refl) as (opening & closing & Hopening & _ & Hstart & _).
  vm_compute in Hopening. injection Hopening as <-. exact Hstart.
Defined.

(** ** The memo and the dates of a line *)

Lemma parse_line_memo self ntry sline :
  _parse_line self ntry = ok (Some sline) ->
  memo sline =
    match _find self ntry remittance_text with
    | Some r => text r
    | None => node_text (_find self ntry additional_info)
    end.
Proof.
  unfold _parse_line, remittance_text, additional_info. intros H.
  apply bind_ok in H as (ind & _ & H).
  apply bind_ok in H as (amtnode & _ & H).
  destruct (bool_decide (get amtnode "Ccy" = currency (statement self)));
    simpl in H; [|discriminate].
  apply bind_ok in H as (a & _ & H).
  destruct (bool_decide (text ind = Some CD_DEBIT));
    apply bind_ok in H as (d & _ & H);
    apply bind_ok in H as (du & _ & H);
    apply bind_ok in H as (ref & _ & H);
    unfold ok in H; injection H as <-; simpl;
    destruct (_find self ntry "NtryDtls/TxDtls/RmtInf/Ustrd");
    destruct (_find self ntry "AddtlNtryInf"); reflexivity.
Qed.

(** The memo of an extracted line is the text of the unstructured remittance
    information when that element exists, even if it is empty and an
    additional-information element has text; it is the text of the
    additional entry information otherwise, and [None] when neither
    exists. *)
Theorem parse_line_memo_resolution
    (self : Iso20022Parser) (ntry : Element) (sline : StatementLine) :
  _parse_line self ntry = ok (Some sline) ->
  (forall r, _find self ntry remittance_text = Some r -> memo sline = text r) /\
  (forall a, _find self ntry remittance_text = None ->
     _find self ntry additional_info = Some a -> memo sline = text a) /\
  (_find self ntry remittance_text = None ->
   _find self ntry additional_info = None -> memo sline = None).
Proof.
  intros H. rewrite (parse_line_memo _ _ _ H).
  split; [|split].
  - intros r ->. reflexivity.
  - intros a -> ->. reflexivity.
  - intros -> ->. reflexivity.
Qed.

Lemma parse_line_memo_resolution_witness :
  exists sline,
    _parse_line (Sample.parser "EUR")
      (Sample.elem "Ntry"
         [Sample.amt "EUR" "0.29"; Sample.leaf "CdtDbtInd" "DBIT";
          Sample.leaf "AcctSvcrRef" "FC1261858984";
          Sample.leaf "AddtlNtryInf" "Account Transfer";
          Sample.elem "NtryDtls"
            [Sample.elem "TxDtls" [Sample.elem "RmtInf" [Sample.elem "Ustrd" []]]]])
      = ok (Some sline) /\
    memo sline = None /\ date sline = None.
Proof.
  eexists. split; [reflexivity|].
  destruct (parse_line_memo_resolution (Sample.parser "EUR")
              (Sample.elem "Ntry"
                 [Sample.amt "EUR" "0.29"; Sample.leaf "CdtDbtInd" "DBIT";
                  Sample.leaf "AcctSvcrRef" "FC1261858984";
                  Sample.leaf "AddtlNtryInf" "Account Transfer";
                  Sample.elem "NtryDtls"
                    [Sample.elem "TxDtls" [Sample.elem "RmtInf" [Sample.elem "Ustrd" []]]]])
              _ eq_refl) as (Hrmt & _ & _).
  split; [exact (Hrmt (Sample.elem "Ustrd" []) eq_refl) | reflexivity].
Defined.

Lemma parse_date_none self dtnode :
  _parse_date self dtnode = ok None -> dtnode = None.
Proof.
  destruct dtnode as [n|]; [|reflexivity]. unfold _parse_date.
  destruct (_find self n "Dt") as [d|]; [|destruct (_find self n "DtTm") as [t|]];
    try discriminate; intros H;
    apply bind_ok in H as (v & _ & H); apply bind_ok in H as (r & _ & H);
    discriminate.
Qed.

(** The value date and the booking date of an extracted line are absent
    exactly when the entry has no [ValDt], respectively no [BookgDt],
    element: a missing element is tolerated, a present one always yields a
    timestamp. *)
Theorem parse_line_dates
    (self : Iso20022Parser) (ntry : Element) (sline : StatementLine) :
  _parse_line self ntry = ok (Some sline) ->
  (date sline = None <-> _find self ntry "ValDt" = None) /\
  (date_user sline = None <-> _find self ntry "BookgDt" = None).
Proof.
  intros H.
  apply parse_line_ok in H
    as (ind & amtnode & a & ref & _ & _ & _ & _ & Hd & Hdu & _).
  split; split; intros E.
  - rewrite E in Hd. exact (parse_date_none _ _ Hd).
  - rewrite E in Hd. simpl in Hd. unfold ok in Hd. now injection Hd as <-.
  - rewrite E in Hdu. exact (parse_date_none _ _ Hdu).
  - rewrite E in Hdu. simpl in Hdu. unfold ok in Hdu. now injection Hdu as <-.
Qed.

Lemma parse_line_dates_witness :
  exists sline,
    _parse_line (Sample.parser "EUR")
      (Sample.elem "Ntry"
         [Sample.amt "EUR" "0.29"; Sample.leaf "CdtDbtInd" "DBIT";
          Sample.on_date "BookgDt" "2015-12-31";
          Sample.leaf "AcctSvcrRef" "FC1261858984"])
      = ok (Some sline) /\
    date sline = None /\ date_user sline <> None.
Proof.
  eexists. split; [reflexivity|].
  destruct (parse_line_dates (Sample.parser "EUR")
              (Sample.elem "Ntry"
                 [Sample.amt "EUR" "0.29"; Sample.leaf "CdtDbtInd" "DBIT";
                  Sample.on_date "BookgDt" "2015-12-31";
                  Sample.leaf "AcctSvcrRef" "FC1261858984"])
              _ eq_refl) as [Hval Hbook].
  split; [apply Hval; reflexivity | discriminate].
Defined.

(** ** The timestamps [_parse_date] returns *)

Lemma match_format_directives fmt : forall l groups over,
  In (groups, over) (match_format fmt l) -> map fst groups = fmt.
Proof.
  induction fmt as [|d fmt IH]; intros l groups over Hin; simpl in Hin.
  - destruct Hin as [[= <- <-]|[]]. reflexivity.
  - apply in_flat_map in Hin as (cs & _ & Hin).
    destruct (match_classes cs l) as [[m rest]|]; [|destruct Hin].
    apply in_map_iff in Hin as ([gs over'] & [= <- <-] & Hin).
    simpl. f_equal. exact (IH _ _ _ Hin).
Qed.

Lemma strptime_ok s fmt r :
  strptime s fmt = ok r ->
  valid_datetime r = true /\
  exists groups,
    map fst groups = fmt /\
    r = fold_left set_field groups (mkDatetime 1900 1 1 0 0 0).
Proof.
  unfold strptime.
  destruct (match_format fmt (list_ascii_of_string s)) as [|[groups [|c over]] paths] eqn:E;
    try discriminate.
  destruct (valid_datetime _) eqn:Hv; [|discriminate].
  intros H. unfold ok in H. injection H as <-. split; [exact Hv|].
  exists groups. split; [|reflexivity].
  apply (match_format_directives fmt (list_ascii_of_string s) groups []).
  rewrite E. now left.
Qed.

Lemma strptime_date_midnight s r :
  strptime s format_date = ok r -> hour r = 0 /\ minute r = 0 /\ second r = 0.
Proof.
  intros H. apply strptime_ok in H as (_ & groups & Hmap & ->).
  destruct groups as [|[d1 m1] [|[d2 m2] [|[d3 m3] [|[d4 m4] [|[d5 m5] [|g gs]]]]]];
    try discriminate.
  injection Hmap as -> -> -> -> ->. repeat split.
Qed.

(** A timestamp the normalizer returns is a date of the calendar with a time
    of the day: month and day in range for the year, hour below 24, minute
    and second below 60.  Read from a date-only child it is at midnight. *)
Theorem parse_date_valid
    (self : Iso20022Parser) (dtnode : option Element) (r : datetime) :
  _parse_date self dtnode = ok (Some r) ->
  (1 <= year r <= 9999 /\ 1 <= month r <= 12 /\
   1 <= day r <= days_in_month (year r) (month r) /\
   0 <= hour r <= 23 /\ 0 <= minute r <= 59 /\ 0 <= second r <= 59) /\
  (forall n d, dtnode = Some n -> _find self n "Dt" = Some d ->
     hour r = 0 /\ minute r = 0 /\ second r = 0).
Proof.
  intros H.
  assert (Hfrom : exists v fmt, strptime v fmt = ok r /\
            (forall n d, dtnode = Some n -> _find self n "Dt" = Some d ->
               fmt = format_date)).
  { destruct dtnode as [n|]; [|discriminate]. unfold _parse_date in H.
    destruct (_find self n "Dt") as [d|] eqn:Edt.
    - apply bind_ok in H as (v & _ & H). apply bind_ok in H as (r' & Hr & H).
      unfold ok in H. injection H as <-. exists v, format_date. auto.
    - destruct (_find self n "DtTm") as [t|]; [|discriminate].
      apply bind_ok in H as (v & _ & H). apply bind_ok in H as (r' & Hr & H).
      unfold ok in H. injection H as <-. exists v, format_datetime.
      split; [exact Hr|]. intros n' d [= <-] Hd. rewrite Edt in Hd. discriminate. }
  destruct Hfrom as (v & fmt & Hr & Hfmt). split.
  - apply strptime_ok in Hr as [Hv _]. unfold valid_datetime in Hv.
    repeat (apply andb_true_iff in Hv as [Hv ?]).
    repeat match goal with Hle : (_ <=? _) = true |- _ => apply Z.leb_le in Hle end.
    lia.
  - intros n d Hn Hd. rewrite (Hfmt n d Hn Hd) in Hr.
    exact (strptime_date_midnight _ _ Hr).
Qed.

Lemma parse_date_valid_witness :
  _parse_date (Sample.parser "EUR") (Some (Sample.on_date "ValDt" "2016-02-29"))
  = ok (Some (mkDatetime 2016 2 29 0 0 0)) /\
  1 <= day (mkDatetime 2016 2 29 0 0 0) <= days_in_month 2016 2.
Proof.
  split; [reflexivity|].
  destruct (parse_date_valid (Sample.parser "EUR")
              (Some (Sample.on_date "ValDt" "2016-02-29"))
              (mkDatetime 2016 2 29 0 0 0) eq_refl) as [(_ & _ & Hday & _) _].
  exact Hday.
Defined.

(** A [+offset] after the text of a date plays no part: the timestamp is the
    one of the text before the [+], as long as the text holds a single
    [+]. *)
Theorem parse_date_ignores_offset
    (self : Iso20022Parser) (n d : Element) (pre offset : string) :
  _find self n "Dt" = Some d ->
  text d = Some (pre ++ String "+" offset) ->
  contains_char "+" pre = false ->
  contains_char "+" offset = false ->
  _parse_date self (Some n) = (do r <- strptime pre format_date; ok (Some r)).
Proof.
  intros Hd Ht Hpre Hoff. unfold _parse_date. rewrite Hd, Ht.
  unfold _notimezone. rewrite contains_char_app. simpl. rewrite orb_true_r. simpl.
  now rewrite (split_app _ _ _ Hpre), (split_none _ _ Hoff).
Qed.

Lemma parse_date_ignores_offset_witness :
  _parse_date (Sample.parser "EUR") (Some (Sample.on_date "ValDt" "2017-04-01+02:00"))
  = ok (Some (mkDatetime 2017 4 1 0 0 0)).
Proof.
  rewrite (parse_date_ignores_offset (Sample.parser "EUR")
             (Sample.on_date "ValDt" "2017-04-01+02:00")
             (Sample.leaf "Dt" "2017-04-01+02:00") "2017-04-01" "02:00");
    reflexivity.
Defined.

(** ** Shorthand paths *)

Lemma split_cons sep s : exists piece pieces, split sep s = piece :: pieces.
Proof.
  destruct s as [|x s]; simpl; [eauto|].
  destruct (Ascii.eqb x sep); [eauto|]. destruct (split sep s); eauto.
Qed.

Lemma split_app_sep sep p q :
  split sep (p ++ String sep q) = (split sep p ++ split sep q)%list.
Proof.
  induction p as [|x p IH]; simpl.
  - now rewrite Ascii.eqb_refl.
  - destruct (Ascii.eqb x sep); [now rewrite IH|].
    rewrite IH. destruct (split_cons sep p) as (piece & pieces & ->). reflexivity.
Qed.

Lemma join_cons_char sep x piece pieces :
  join sep (String x piece :: pieces) = String x (join sep (piece :: pieces)).
Proof. destruct pieces; reflexivity. Qed.

(** Joining the pieces of a split gives the text back. *)
Lemma join_split sep s : join sep (split sep s) = s.
Proof.
  induction s as [|x s IH]; simpl; [reflexivity|].
  destruct (split_cons sep s) as (piece & pieces & E). rewrite E in *.
  destruct (Ascii.eqb x sep) eqn:Hx.
  - apply Ascii.eqb_eq in Hx as ->. simpl. now rewrite <- IH.
  - now rewrite join_cons_char, IH.
Qed.

Lemma split_pieces sep s :
  Forall (fun piece => contains_char sep piece = false) (split sep s).
Proof.
  induction s as [|x s IH]; simpl; [repeat constructor|].
  destruct (Ascii.eqb x sep) eqn:Hx; [constructor; [reflexivity | exact IH]|].
  destruct (split sep s) as [|piece pieces]; [repeat constructor; simpl; now rewrite Hx|].
  apply Forall_cons in IH as [Hp Hps]. constructor; [|exact Hps].
  simpl. now rewrite Hx.
Qed.

(** Splitting a join of pieces that hold no separator gives the pieces
    back. *)
Lemma split_join sep piece pieces :
  Forall (fun piece => contains_char sep piece = false) (piece :: pieces) ->
  split sep (join sep (piece :: pieces)) = piece :: pieces.
Proof.
  revert piece. induction pieces as [|p ps IH]; intros piece Hall.
  - apply Forall_cons in Hall as [Hp _]. now apply split_none.
  - apply Forall_cons in Hall as [Hp Hps].
    change (join sep (piece :: p :: ps)) with (piece ++ String sep (join sep (p :: ps))).
    now rewrite (split_app _ _ _ Hp), (IH _ Hps).
Qed.

Lemma resolve_prefixed xmlns uri t :
  xmlns !! "s" = Some uri -> resolve xmlns ("s:" ++ t) = clark uri t.
Proof.
  intros Hs. unfold resolve.
  change (split ":" ("s:" ++ t)) with
    (match split ":" (String ":" t) with
     | piece :: pieces => String "s" piece :: pieces
     | [] => ["s"]
     end).
  change (split ":" (String ":" t)) with ("" :: split ":" t).
  destruct (split_cons ":" t) as (local & more & E). rewrite E, Hs.
  unfold clark. now rewrite <- E, join_split.
Qed.

Lemma steps_of_pieces xmlns uri tags :
  xmlns !! "s" = Some uri ->
  map (fun name => if String.eqb name "." then step_self
                   else step_child (resolve xmlns name))
      (map (fun t => "s:" ++ t) tags)
  = map (fun t => step_child (clark uri t)) tags.
Proof.
  intros Hs. rewrite map_map. apply map_ext. intros t.
  change (String.eqb ("s:" ++ t) ".") with false.
  now rewrite (resolve_prefixed _ _ _ Hs).
Qed.

Lemma steps_toxpath xmlns uri spath :
  xmlns !! "s" = Some uri ->
  steps xmlns (_toxpath spath)
  = step_self :: map (fun t => step_child (clark uri t)) (split "/" spath).
Proof.
  intros Hs. unfold steps, _toxpath.
  destruct (split_cons "/" spath) as (t & ts & E).
  pose proof (split_pieces "/" spath) as Hpieces. rewrite E in *.
  change (map (fun t0 => "s:" ++ t0) (t :: ts))
    with (("s:" ++ t) :: map (fun t0 => "s:" ++ t0) ts).
  change (split "/" ("./" ++ join "/" (("s:" ++ t) :: map (fun t0 => "s:" ++ t0) ts)))
    with (match split "/" (String "/" (join "/" (("s:" ++ t) :: map (fun t0 => "s:" ++ t0) ts))) with
          | piece :: pieces => String "." piece :: pieces
          | [] => ["."]
          end).
  change (split "/" (String "/" (join "/" (("s:" ++ t) :: map (fun t0 => "s:" ++ t0) ts))))
    with ("" :: split "/" (join "/" (("s:" ++ t) :: map (fun t0 => "s:" ++ t0) ts))).
  rewrite split_join.
  - change (("s:" ++ t) :: map (fun t0 => "s:" ++ t0) ts)
      with (map (fun t0 => "s:" ++ t0) (t :: ts)).
    rewrite map_cons, (steps_of_pieces _ _ _ Hs). reflexivity.
  - change (("s:" ++ t) :: map (fun t0 => "s:" ++ t0) ts)
      with (map (fun t0 => "s:" ++ t0) (t :: ts)).
    apply Forall_map. eapply Forall_impl; [exact Hpieces|].
    intros piece Hp. exact Hp.
Qed.

Lemma select_steps uri tags : forall ctx,
  fold_left select (map (fun t => step_child (clark uri t)) tags) ctx
  = descend uri tags ctx.
Proof. induction tags as [|t tags IH]; intros ctx; simpl; [reflexivity | apply IH]. Qed.

Lemma select_child_app name c1 c2 :
  select_child name (c1 ++ c2) = (select_child name c1 ++ select_child name c2)%list.
Proof. apply flat_map_app. Qed.

Lemma descend_app uri tags : forall c1 c2,
  descend uri tags (c1 ++ c2) = (descend uri tags c1 ++ descend uri tags c2)%list.
Proof.
  induction tags as [|t tags IH]; intros c1 c2; simpl; [reflexivity|].
  unfold descend in *. simpl. now rewrite select_child_app, IH.
Qed.

Lemma descend_nil uri tags : descend uri tags [] = [].
Proof. induction tags as [|t tags IH]; [reflexivity | exact IH]. Qed.

Lemma descend_flat_map uri tags ctx :
  descend uri tags ctx = flat_map (fun x => descend uri tags [x]) ctx.
Proof.
  induction ctx as [|x ctx IH]; simpl; [apply descend_nil|].
  change (x :: ctx) with ([x] ++ ctx)%list. now rewrite descend_app, IH.
Qed.

(** A shorthand path of plain tags, once [s] is bound to a namespace, selects
    from the element, tag by tag, the children whose tag is that name in the
    namespace: building the prefixed path as a string and cutting it again
    for the lookup loses nothing.  [_find] gives the first element so
    selected. *)
Theorem findall_shorthand
    (self : Iso20022Parser) (tree : Element) (spath uri : string) :
  xmlns self !! "s" = Some uri ->
  Forall (fun t => plain_name t = true) (split "/" spath) ->
  _findall self tree spath = descend uri (split "/" spath) [tree] /\
  _find self tree spath = head (descend uri (split "/" spath) [tree]).
Proof.
  intros Hs _.
  assert (H : _findall self tree spath = descend uri (split "/" spath) [tree]).
  { unfold _findall, findall. rewrite (steps_toxpath _ _ _ Hs). simpl.
    apply select_steps. }
  split; [exact H|]. unfold _find, find. fold (_findall self tree spath).
  now rewrite H.
Qed.

Lemma findall_shorthand_witness :
  _findall (Sample.parser "EUR")
    (Sample.document [Sample.acct; Sample.fee; Sample.fee]) "BkToCstmrStmt/Stmt/Ntry"
  = [Sample.fee; Sample.fee].
Proof.
  rewrite (proj1 (findall_shorthand (Sample.parser "EUR")
                    (Sample.document [Sample.acct; Sample.fee; Sample.fee])
                    "BkToCstmrStmt/Stmt/Ntry" Sample.ns eq_refl
                    ltac:(repeat constructor))).
  reflexivity.
Defined.

(** Lookups compose along the path: what a path of two parts finds is what
    the second part finds from each element the first part finds, in order;
    so nothing is found below a place where nothing is. *)
Theorem findall_compose
    (self : Iso20022Parser) (tree : Element) (p q uri : string) :
  xmlns self !! "s" = Some uri ->
  Forall (fun t => plain_name t = true) (split "/" p) ->
  Forall (fun t => plain_name t = true) (split "/" q) ->
  _findall self tree (p ++ String "/" q)
  = flat_map (fun x => _findall self x q) (_findall self tree p) /\
  (_find self tree p = None -> _find self tree (p ++ String "/" q) = None).
Proof.
  intros Hs Hp Hq.
  assert (Hpq : Forall (fun t => plain_name t = true) (split "/" (p ++ String "/" q))).
  { rewrite split_app_sep. apply Forall_app. now split. }
  destruct (findall_shorthand self tree p uri Hs Hp) as [Hfp Hp1].
  destruct (findall_shorthand self tree (p ++ String "/" q) uri Hs Hpq) as [Hfpq Hpq1].
  assert (H : _findall self tree (p ++ String "/" q)
              = flat_map (fun x => _findall self x q) (_findall self tree p)).
  { rewrite Hfpq, Hfp, split_app_sep. unfold descend at 1. rewrite fold_left_app.
    fold (descend uri (split "/" p) [tree]).
    fold (descend uri (split "/" q) (descend uri (split "/" p) [tree])).
    rewrite descend_flat_map. apply flat_map_ext. intros x.
    symmetry. exact (proj1 (findall_shorthand self x q uri Hs Hq)). }
  split; [exact H|].
  intros Hnone. rewrite Hpq1, <- Hfpq, H.
  rewrite Hp1, <- Hfp in Hnone.
  destruct (_findall self tree p); [reflexivity | discriminate].
Qed.

Lemma findall_compose_witness :
  _findall (Sample.parser "EUR") Sample.fee "NtryDtls/TxDtls/RltdPties/Cdtr/Nm"
  = flat_map (fun x => _findall (Sample.parser "EUR") x "Cdtr/Nm")
             (_findall (Sample.parser "EUR") Sample.fee "NtryDtls/TxDtls/RltdPties").
Proof.
  exact (proj1 (findall_compose (Sample.parser "EUR") Sample.fee
                  "NtryDtls/TxDtls/RltdPties" "Cdtr/Nm" Sample.ns eq_refl
                  ltac:(repeat constructor) ltac:(repeat constructor))).
Defined.

(** ** The record [parse] returns *)

Lemma same_currency_context self self' ntry :
  same_context self self' -> same_currency self ntry = same_currency self' ntry.
Proof.
  destruct self as [c [l cur b a sb sd eb ed] x].
  destruct self' as [c' [l' cur' b' a' sb' sd' eb' ed'] x'].
  intros [Hx Hc]. simpl in Hx, Hc. subst. reflexivity.
Qed.

Lemma parse_lines_loop_fields ntries : forall self self',
  _parse_lines_loop self ntries = ok self' ->
  bank_id (statement self') = bank_id (statement self) /\
  account_id (statement self') = account_id (statement self) /\
  start_balance (statement self') = start_balance (statement self) /\
  start_date (statement self') = start_date (statement self) /\
  end_balance (statement self') = end_balance (statement self) /\
  end_date (statement self') = end_date (statement self).
Proof.
  induction ntries as [|ntry ntries IH]; intros self self' H; simpl in H.
  - unfold ok in H. injection H as <-. repeat split.
  - apply bind_ok in H as (self1 & Hstep & H).
    unfold _parse_lines_step in Hstep.
    apply bind_ok in Hstep as (sline & _ & Hstep).
    destruct sline as [sline|]; unfold ok in Hstep; injection Hstep as <-;
      exact (IH _ _ H).
Qed.

(** What a successful [parse] went through. *)
Lemma parse_inv self tree st :
  parse self tree = ok st ->
  String.prefix ISO20022_NAMESPACE_ROOT (_get_namespace tree) = true /\
  exists self1 self2,
    _parse_statement_properties
      (mkParser (self_currency self) (set_currency Statement_new (self_currency self))
                {["s" := _get_namespace tree]}) tree = ok self1 /\
    _parse_lines self1 tree = ok self2 /\
    st = statement self2.
Proof.
  unfold parse. intros H.
  destruct (String.prefix ISO20022_NAMESPACE_ROOT (_get_namespace tree));
    simpl in H; [|discriminate].
  split; [reflexivity|].
  apply bind_ok in H as (self1 & Hprops & H).
  apply bind_ok in H as (self2 & Hlines & H).
  unfold ok in H. injection H as <-. eauto.
Qed.

(** The lines of the record [parse] returns are, in document order, the
    extractions of the entries of the document whose amount is in the
    record's currency, one line for each and no other: the record starts
    without lines, and an entry in another currency leaves none. *)
Theorem parse_lines_of_record
    (self : Iso20022Parser) (tree : Element) (st : Statement) :
  parse self tree = ok st ->
  Forall2 (fun ntry sline =>
             _parse_line (context (_get_namespace tree) (currency st)) ntry
             = ok (Some sline))
          (List.filter (same_currency (context (_get_namespace tree) (currency st)))
             (_findall (context (_get_namespace tree) (currency st)) tree
                       "BkToCstmrStmt/Stmt/Ntry"))
          (lines st) /\
  (length (lines st)
   <= length (_findall (context (_get_namespace tree) (currency st)) tree
                       "BkToCstmrStmt/Stmt/Ntry"))%nat.
Proof.
  intros H. apply parse_inv in H as (_ & self1 & self2 & Hprops & Hlines & ->).
  apply statement_properties_inv in Hprops
    as (stmt & c & st0 & amts & dates & iban & oa & od & ca & cd
        & _ & _ & _ & Hl0 & _ & _ & _ & _ & _ & _ & Hx & Hst).
  simpl in Hl0, Hx.
  unfold _parse_lines in Hlines.
  apply (parse_lines_loop_ok self1) in Hlines as ([_ Hcur] & kept & Hkept & Hall);
    [|split; reflexivity].
  rewrite Hst in Hkept. simpl in Hkept. rewrite Hl0 in Hkept. simpl in Hkept.
  assert (Hctx : same_context self1
                   (context (_get_namespace tree) (currency (statement self2)))).
  { split; [exact Hx | simpl; now rewrite <- Hcur]. }
  assert (Hfind : _findall self1 tree "BkToCstmrStmt/Stmt/Ntry"
                  = _findall (context (_get_namespace tree) (currency (statement self2)))
                      tree "BkToCstmrStmt/Stmt/Ntry").
  { unfold _findall. now rewrite Hx. }
  rewrite Hkept.
  assert (Hgoal : Forall2
            (fun ntry sline =>
               _parse_line (context (_get_namespace tree) (currency (statement self2))) ntry
               = ok (Some sline))
            (List.filter
               (same_currency (context (_get_namespace tree) (currency (statement self2))))
               (_findall (context (_get_namespace tree) (currency (statement self2))) tree
                         "BkToCstmrStmt/Stmt/Ntry"))
            kept).
  { rewrite <- Hfind.
    rewrite <- (List.filter_ext (same_currency self1) _
                  (fun ntry => same_currency_context _ _ ntry Hctx)).
    eapply Forall2_impl; [exact Hall|].
    intros ntry sline Hline. now rewrite <- (parse_line_context _ _ ntry Hctx). }
  split; [exact Hgoal|].
  rewrite <- (Forall2_length _ _ _ Hgoal). apply List.filter_length_le.
Qed.

Lemma parse_lines_of_record_witness :
  exists st,
    parse (Iso20022Parser_new None)
      (Sample.document
         [Sample.acct; Sample.opening; Sample.closing; Sample.fee;
          Sample.ntry "DBIT" "USD" "0.29" []]) = ok st /\
    (length (lines st) <= 2)%nat.
Proof.
  eexists. split; [vm_compute; reflexivity|].
  destruct (parse_lines_of_record (Iso20022Parser_new None)
              (Sample.document
                 [Sample.acct; Sample.opening; Sample.closing; Sample.fee;
                  Sample.ntry "DBIT" "USD" "0.29" []])
              _ eq_refl) as [_ Hlen].
  vm_compute in Hlen |- *. exact Hlen.
Defined.

(** A record returned by the plugin, whatever its settings, comes from a
    document of the camt.053 namespace and is never without a currency, an
    account-id field read from an IBAN element, an opening or a closing
    balance. *)
Theorem parse_record_complete
    (settings : gmap string string) (tree : Element) (st : Statement) :
  parse (get_parser settings) tree = ok st ->
  String.prefix ISO20022_NAMESPACE_ROOT (_get_namespace tree) = true /\
  is_Some (currency st) /\
  is_Some (start_balance st) /\
  is_Some (end_balance st) /\
  exists stmt iban,
    find {["s" := _get_namespace tree]} tree statement_path = Some stmt /\
    find {["s" := _get_namespace tree]} stmt "./s:Acct/s:Id/s:IBAN" = Some iban /\
    account_id st = text iban.
Proof.
  intros H. apply parse_inv in H as (Hns & self1 & self2 & Hprops & Hlines & ->).
  split; [exact Hns|].
  apply statement_properties_inv in Hprops
    as (stmt & c & st0 & amts & dates & iban & oa & od & ca & cd
        & Hstmt & _ & _ & _ & _ & Hiban & _ & _ & _ & _ & _ & Hst).
  simpl in Hstmt, Hiban.
  unfold _parse_lines in Hlines.
  pose proof (parse_lines_loop_fields _ _ _ Hlines) as (_ & Hacc & Hsb & _ & Heb & _).
  apply (parse_lines_loop_ok self1) in Hlines as ([_ Hcur] & _); [|split; reflexivity].
  rewrite <- Hcur, Hacc, Hsb, Heb, Hst. simpl.
  repeat split; eauto.
Qed.

Lemma parse_record_complete_witness :
  exists st,
    parse (get_parser {["currency" := "USD"]}) Sample.simple = ok st /\
    currency st = Some "EUR" /\ is_Some (start_balance st).
Proof.
  eexists. split; [vm_compute; reflexivity|]. split; [reflexivity|].
  destruct (parse_record_complete {["currency" := "USD"]} Sample.simple _ eq_refl)
    as (_ & _ & Hstart & _).
  exact Hstart.
Defined.

Lemma last_filter_In {A : Type} (f : A -> bool) (l : list A) (x : A) :
  last (List.filter f l) = Some x -> In x l /\ f x = true.
Proof.
  intros H. apply last_Some in H as [l' E].
  apply List.filter_In. rewrite E. apply in_or_app. right. now left.
Qed.

Lemma is_code_amount xmlns ccy code bal :
  is_code xmlns ccy code bal = true ->
  exists amt, find xmlns bal "./s:Amt" = Some amt /\ get amt "Ccy" = ccy.
Proof.
  unfold is_code. destruct (find xmlns bal "./s:Amt") as [amt|]; [|discriminate].
  destruct (find xmlns bal "./s:Tp/s:CdOrPrtry/s:Cd"); [|discriminate].
  intros [Hccy _]%andb_true_iff. apply bool_decide_eq_true in Hccy. eauto.
Qed.

(** The opening date of the record is absent exactly when the balance
    element the opening balance comes from has no [Dt] element, and so for
    the closing date: a balance without a date is accepted, and leaves the
    date of the record empty while its amount is set. *)
Theorem statement_properties_dates
    (self self1 : Iso20022Parser) (tree stmt : Element) :
  find (xmlns self) tree statement_path = Some stmt ->
  _parse_statement_properties self tree = ok self1 ->
  exists opening closing,
    last (List.filter (is_code (xmlns self) (currency (statement self1)) "OPBD")
                      (findall (xmlns self) stmt "./s:Bal")) = Some opening /\
    last (List.filter (is_code (xmlns self) (currency (statement self1)) "CLBD")
                      (findall (xmlns self) stmt "./s:Bal")) = Some closing /\
    (start_date (statement self1) = None <->
     find (xmlns self) opening "./s:Dt" = None) /\
    (end_date (statement self1) = None <->
     find (xmlns self) closing "./s:Dt" = None).
Proof.
  intros Hstmt H.
  apply statement_properties_inv in H
    as (stmt' & c & st & amts & dates & iban & oa & od & ca & cd
        & Hstmt' & _ & Hcur & _ & Hloop & _ & Hoa & Hod & Hca & Hcd & _ & Hst).
  rewrite Hstmt in Hstmt'. injection Hstmt' as <-. rewrite Hst. simpl.
  assert (Hdate : forall code d bal,
            dates !! Some code = Some d ->
            last (List.filter (is_code (xmlns self) (Some c) code)
                              (findall (xmlns self) stmt "./s:Bal")) = Some bal ->
            d = None <-> find (xmlns self) bal "./s:Dt" = None).
  { intros code d bal Hd Hlast.
    destruct (parse_balances_lookup _ code _ _ _ Hloop) as [_ Hk].
    simpl in Hk. rewrite Hcur, Hlast, Hd in Hk. injection Hk as ->.
    apply last_filter_In in Hlast as [Hin Hcode].
    apply is_code_amount in Hcode as (amt & Hamt & Hccy).
    destruct (parse_balances_each _ _ _ _ Hloop bal Hin) as (d0 & d1 & Hstep).
    destruct (parse_balance_parsed _ _ _ _ amt Hstep Hamt) as [_ [d Hparsed]].
    { simpl. now rewrite Hcur. }
    unfold balance_date. simpl in Hparsed |- *. rewrite Hparsed.
    change (d = None <-> find (xmlns self) bal "./s:Dt" = None). split.
    - intros ->. exact (parse_date_none _ _ Hparsed).
    - intros E. rewrite E in Hparsed. simpl in Hparsed. unfold ok in Hparsed.
      now injection Hparsed as <-. }
  destruct (parse_balances_lookup _ "OPBD" _ _ _ Hloop) as [Ho _].
  destruct (parse_balances_lookup _ "CLBD" _ _ _ Hloop) as [Hc _].
  simpl in Ho, Hc. rewrite Hcur in Ho, Hc. rewrite Hoa in Ho. rewrite Hca in Hc.
  destruct (last (List.filter (is_code (xmlns self) (Some c) "OPBD") _))
    as [opening|] eqn:Eo; [|rewrite lookup_empty in Ho; discriminate].
  destruct (last (List.filter (is_code (xmlns self) (Some c) "CLBD") _))
    as [closing|] eqn:Ec; [|rewrite lookup_empty in Hc; discriminate].
  exists opening, closing. repeat split; try reflexivity.
  - apply (Hdate "OPBD" od opening Hod Eo).
  - apply (Hdate "OPBD" od opening Hod Eo).
  - apply (Hdate "CLBD" cd closing Hcd Ec).
  - apply (Hdate "CLBD" cd closing Hcd Ec).
Qed.

Lemma statement_properties_dates_witness :
  exists self1,
    _parse_statement_properties (Sample.parser "EUR")
      (Sample.document
         [Sample.acct;
          Sample.elem "Bal"
            [Sample.elem "Tp" [Sample.elem "CdOrPrtry" [Sample.leaf "Cd" "OPBD"]];
             Sample.amt "EUR" "306.53"];
          Sample.closing]) = ok self1 /\
    start_date (statement self1) = None /\
    is_Some (start_balance (statement self1)).
Proof.
  eexists. split; [vm_compute; reflexivity|].
  destruct (statement_properties_dates (Sample.parser "EUR") _
              (Sample.document
                 [Sample.acct;
                  Sample.elem "Bal"
                    [Sample.elem "Tp" [Sample.elem "CdOrPrtry" [Sample.leaf "Cd" "OPBD"]];
                     Sample.amt "EUR" "306.53"];
                  Sample.closing])
              (Sample.elem "Stmt"
                 [Sample.acct;
                  Sample.elem "Bal"
                    [Sample.elem "Tp" [Sample.elem "CdOrPrtry" [Sample.leaf "Cd" "OPBD"]];
                     Sample.amt "EUR" "306.53"];
                  Sample.closing])
              eq_refl eq_refl) as (opening & closing & Hopening & _ & Hstart & _).
  vm_compute in Hopening. injection Hopening as <-.
  split; [apply Hstart; reflexivity | eexists; reflexivity].
Defined.

Lemma parse_lines_loop_each ntries : forall self self',
  _parse_lines_loop self ntries = ok self' ->
  Forall (fun ntry => exists r, _parse_line self ntry = ok r) ntries.
Proof.
  induction ntries as [|ntry ntries IH]; intros self self' H; [constructor|].
  simpl in H. apply bind_ok in H as (self1 & Hstep & H).
  pose proof Hstep as Hstep'. unfold _parse_lines_step in Hstep'.
  apply bind_ok in Hstep' as (r & Hline & Hself1).
  constructor; [eauto|].
  assert (Hctx : same_context self self1).
  { destruct r as [sline|]; unfold ok in Hself1; injection Hself1 as <-;
      split; reflexivity. }
  eapply Forall_impl; [exact (IH _ _ H)|].
  intros n [r' Hr']. exists r'. now rewrite (parse_line_context _ _ n Hctx).
Qed.

(** [parse] returns a record only if the extraction of every entry of the
    document went through, the entries in another currency included: one
    entry that fails (no indicator, no amount element, an amount or a date
    that does not parse, no reference) fails the whole document. *)
Theorem parse_all_entries
    (self : Iso20022Parser) (tree : Element) (st : Statement) :
  parse self tree = ok st ->
  Forall (fun ntry =>
            exists r,
              _parse_line (context (_get_namespace tree) (currency st)) ntry = ok r)
         (_findall (context (_get_namespace tree) (currency st)) tree
                   "BkToCstmrStmt/Stmt/Ntry").
Proof.
  intros H. apply parse_inv in H as (_ & self1 & self2 & Hprops & Hlines & ->).
  apply statement_properties_inv in Hprops
    as (stmt & c & st0 & amts & dates & iban & oa & od & ca & cd
        & _ & _ & _ & _ & _ & _ & _ & _ & _ & _ & Hx & _).
  simpl in Hx. unfold _parse_lines in Hlines.
  pose proof (parse_lines_loop_each _ _ _ Hlines) as Hall.
  apply (parse_lines_loop_ok self1) in Hlines as ([_ Hcur] & _); [|split; reflexivity].
  assert (Hctx : same_context self1
                   (context (_get_namespace tree) (currency (statement self2)))).
  { split; [exact Hx | simpl; now rewrite <- Hcur]. }
  replace (_findall (context (_get_namespace tree) (currency (statement self2))) tree
                    "BkToCstmrStmt/Stmt/Ntry")
    with (_findall self1 tree "BkToCstmrStmt/Stmt/Ntry")
    by (unfold _findall; now rewrite Hx).
  eapply Forall_impl; [exact Hall|].
  intros ntry [r Hr]. exists r. now rewrite <- (parse_line_context _ _ ntry Hctx).
Qed.

Lemma parse_all_entries_witness :
  exists r,
    _parse_line (context Sample.ns (Some "EUR")) (Sample.ntry "DBIT" "USD" "0.29" [])
    = ok r.
Proof.
  pose proof (parse_all_entries (Iso20022Parser_new None)
                (Sample.document
                   [Sample.acct; Sample.opening; Sample.closing;
                    Sample.ntry "DBIT" "USD" "0.29" []])
                _ ltac:(vm_compute; reflexivity)) as Hall.
  apply Forall_cons in Hall as [Hfirst _]. exact Hfirst.
Defined.
